(** * LiquidCrystal_IIC and I2CIO: an HD44780 LCD behind an I2C port expander

    A shallow embedding of [LiquidCrystal_IIC.cpp] and [I2CIO.cpp].

    - Every [uint8_t] is a [Z] in [0, 255].  A store that can leave that
      range ([1 << pin], the [int] of [Wire.read()]) is written out with
      [u8], reduction modulo 256; [|], [&] and [>>] of bytes stay in
      range and are [Z.lor], [Z.land] and [Z.shiftr]; [~x] is the [int]
      [Z.lnot x], as in C.
    - The Arduino [Wire] object is the only effect of the code.  It is
      modelled by the list of the calls made on it, oldest first, and by
      a [Bus] that answers the three calls whose result the code looks at
      ([endTransmission], [requestFrom], [read]) from the calls made so
      far.  A method of the C++ classes is a function from the object to
      a computation in the state monad [WireM] over that list, which
      hands the object back with the fields the method assigned.
    - The constants of the headers that are not among the sources
      ([LCD.h], [I2CIO.h], [Arduino.h]) are parameters, the fields of the
      classes [LCD_h] and [I2CIO_h]; what a theorem needs of them is a
      hypothesis of that theorem. *)

From Stdlib Require Import ZArith List Bool Lia.
Import ListNotations.
Local Open Scope Z_scope.

(** ** Bytes *)

Definition u8 (x : Z) : Z := x mod 256.

(** [subset_bits x m]: every bit set in [x] is set in [m]. *)
Definition subset_bits (x m : Z) : Prop :=
  forall i, 0 <= i -> Z.testbit x i = true -> Z.testbit m i = true.

(** ** The Wire library, as a trace of calls *)

Inductive WireOp : Type :=
| Begin                          (* Wire.begin()                *)
| BeginAs (a : Z)                (* Wire.begin(address)         *)
| BeginTransmission (a : Z)      (* Wire.beginTransmission(a)   *)
| Write (b : Z)                  (* Wire.write(b)               *)
| EndTransmission                (* Wire.endTransmission()      *)
| RequestFrom (a n : Z)          (* Wire.requestFrom(a, n)      *)
| Read.                          (* Wire.read()                 *)

Definition Trace : Type := list WireOp.

(** The devices on the bus.  [bus_endTransmission t] is the status that
    [endTransmission] reports after the calls [t] (0 is an acknowledged
    transfer); [bus_requestFrom t a n] is the number of bytes that
    [requestFrom(a, n)] obtains; [bus_read t] is the [int] that [read]
    hands back (-1 when nothing was received). *)
Record Bus : Type := mkBus {
  bus_endTransmission : Trace -> Z;
  bus_requestFrom : Trace -> Z -> Z -> Z;
  bus_read : Trace -> Z
}.

Definition WireM (A : Type) : Type := Trace -> A * Trace.

Definition ret {A : Type} (a : A) : WireM A := fun t => (a, t).

Definition bind {A B : Type} (c : WireM A) (k : A -> WireM B) : WireM B :=
  fun t => let (a, t') := c t in k a t'.

Declare Scope wire_scope.
Delimit Scope wire_scope with wire.
Notation "x <- c ;; k" := (bind c (fun x => k))
  (at level 61, c at next level, right associativity) : wire_scope.
Notation "c ;; k" := (bind c (fun _ => k))
  (at level 61, right associativity) : wire_scope.
Local Open Scope wire_scope.

Definition emit (op : WireOp) : WireM unit := fun t => (tt, t ++ [op]).

Definition value_of {A : Type} (r : A * Trace) : A := fst r.
Definition trace_of {A : Type} (r : A * Trace) : Trace := snd r.

Module Wire.
Definition begin : WireM unit := emit Begin.
Definition begin_as (a : Z) : WireM unit := emit (BeginAs a).
Definition beginTransmission (a : Z) : WireM unit :=
  emit (BeginTransmission a).
(** Every argument the code passes to [Wire.write] is a byte. *)
Definition write (b : Z) : WireM unit := emit (Write b).
Definition endTransmission (bus : Bus) : WireM Z :=
  fun t => (u8 (bus_endTransmission bus t), t ++ [EndTransmission]).
Definition requestFrom (bus : Bus) (a n : Z) : WireM Z :=
  fun t => (u8 (bus_requestFrom bus t a n), t ++ [RequestFrom a n]).
Definition read (bus : Bus) : WireM Z :=
  fun t => (bus_read bus t, t ++ [Read]).
End Wire.

(** ** The headers *)

(** [LiquidCrystal_IIC.h] *)
Inductive iicChipType : Type := IIC_UNKNOWN | IIC_PCF8574 | IIC_MCP23008.

Definition iicChipType_eqb (a b : iicChipType) : bool :=
  match a, b with
  | IIC_UNKNOWN, IIC_UNKNOWN => true
  | IIC_PCF8574, IIC_PCF8574 => true
  | IIC_MCP23008, IIC_MCP23008 => true
  | _, _ => false
  end.

Definition IIC_ADDR_UNKNOWN : Z := 255.

(** Modelled from the spec: the backlight polarity enumeration of
    [LCD.h], a header that is not among the sources; the spec gives it
    as Positive | Negative. *)
Inductive t_backlighPol : Type := POSITIVE | NEGATIVE.

Definition t_backlighPol_eqb (a b : t_backlighPol) : bool :=
  match a, b with
  | POSITIVE, POSITIVE => true
  | NEGATIVE, NEGATIVE => true
  | _, _ => false
  end.

(** The constants of [LCD.h] that [LiquidCrystal_IIC.cpp] names. *)
Class LCD_h : Type := {
  COMMAND : Z;
  DATA : Z;
  FOUR_BITS : Z;
  LCD_4BITMODE : Z;
  LCD_1LINE : Z;
  LCD_5x8DOTS : Z
}.

(** The constants of [I2CIO.h] and [Arduino.h] that [I2CIO.cpp] names. *)
Class I2CIO_h : Type := {
  MCP23008_IODIR : Z;
  MCP23008_IOCON : Z;
  MCP23008_GPIO : Z;
  HIGH : Z;
  INPUT : Z;
  OUTPUT : Z
}.

(** The members of [LiquidCrystal_IIC]; [_polarity] and
    [_displayfunction] are inherited from the base class [LCD]. *)
Record LiquidCrystal_IIC : Type := mkLCD {
  _Addr : Z;
  _iicType : iicChipType;
  _backlightPinMask : Z;
  _backlightStsMask : Z;
  _En : Z;
  _Rw : Z;
  _Rs : Z;
  _data_pins : list Z;
  _polarity : t_backlighPol;
  _displayfunction : Z
}.

Definition set_Addr (a : Z) (o : LiquidCrystal_IIC) : LiquidCrystal_IIC :=
  mkLCD a (_iicType o) (_backlightPinMask o) (_backlightStsMask o)
        (_En o) (_Rw o) (_Rs o) (_data_pins o) (_polarity o)
        (_displayfunction o).

Definition set_iicType (ty : iicChipType) (o : LiquidCrystal_IIC)
  : LiquidCrystal_IIC :=
  mkLCD (_Addr o) ty (_backlightPinMask o) (_backlightStsMask o)
        (_En o) (_Rw o) (_Rs o) (_data_pins o) (_polarity o)
        (_displayfunction o).

Definition set_backlightPin (m : Z) (pol : t_backlighPol)
  (o : LiquidCrystal_IIC) : LiquidCrystal_IIC :=
  mkLCD (_Addr o) (_iicType o) m (_backlightStsMask o)
        (_En o) (_Rw o) (_Rs o) (_data_pins o) pol (_displayfunction o).

Definition set_backlightStsMask (m : Z) (o : LiquidCrystal_IIC)
  : LiquidCrystal_IIC :=
  mkLCD (_Addr o) (_iicType o) (_backlightPinMask o) m
        (_En o) (_Rw o) (_Rs o) (_data_pins o) (_polarity o)
        (_displayfunction o).

Definition set_displayfunction (d : Z) (o : LiquidCrystal_IIC)
  : LiquidCrystal_IIC :=
  mkLCD (_Addr o) (_iicType o) (_backlightPinMask o) (_backlightStsMask o)
        (_En o) (_Rw o) (_Rs o) (_data_pins o) (_polarity o) d.

(** ** LiquidCrystal_IIC.cpp *)

Section Driver.
Context {h : LCD_h}.
Variable bus : Bus.

(** [config]: the body shared by the four constructors.  It assigns
    every member but [_displayfunction], which [init] assigns; the
    object starts with 0 there. *)
Definition config (iic_Addr : Z) (iic_type : iicChipType)
  (En Rw Rs d4 d5 d6 d7 : Z) : LiquidCrystal_IIC :=
  {| _iicType := iic_type;
     _Addr := iic_Addr;
     _backlightPinMask := 0;
     _backlightStsMask := 0;
     _polarity := POSITIVE;
     _En := u8 (Z.shiftl 1 En);
     _Rw := u8 (Z.shiftl 1 Rw);
     _Rs := u8 (Z.shiftl 1 Rs);
     _data_pins := [u8 (Z.shiftl 1 d4); u8 (Z.shiftl 1 d5);
                    u8 (Z.shiftl 1 d6); u8 (Z.shiftl 1 d7)];
     _displayfunction := 0 |}.

Definition setBacklightPin (value : Z) (pol : t_backlighPol)
  (lcd : LiquidCrystal_IIC) : LiquidCrystal_IIC :=
  set_backlightPin (u8 (Z.shiftl 1 value)) pol lcd.

(** The constructor with backlight control. *)
Definition LiquidCrystal_IIC_bl (iic_addr : Z) (iic_type : iicChipType)
  (En Rw Rs d4 d5 d6 d7 backlightPin : Z) (pol : t_backlighPol)
  : LiquidCrystal_IIC :=
  setBacklightPin backlightPin pol
    (config iic_addr iic_type En Rw Rs d4 d5 d6 d7).

(** The [Wire.write(0x0A)] that points an MCP23008 to OLAT. *)
Definition point_to_OLAT (lcd : LiquidCrystal_IIC) : WireM unit :=
  if iicChipType_eqb (_iicType lcd) IIC_MCP23008
  then Wire.write 10
  else ret tt.

Definition setBacklight (value : Z) (lcd : LiquidCrystal_IIC)
  : WireM LiquidCrystal_IIC :=
  if negb (_backlightPinMask lcd =? 0) then
    let lcd' :=
      if (t_backlighPol_eqb (_polarity lcd) POSITIVE && (0 <? value))
         || (t_backlighPol_eqb (_polarity lcd) NEGATIVE && (value =? 0))
      then set_backlightStsMask (_backlightPinMask lcd) lcd
      else set_backlightStsMask 0 lcd in
    Wire.beginTransmission (_Addr lcd') ;;
    point_to_OLAT lcd' ;;
    Wire.write (_backlightStsMask lcd') ;;
    _ <- Wire.endTransmission bus ;;
    ret lcd'
  else ret lcd.

Definition IdentifyIOexp (address : Z) : WireM iicChipType :=
  Wire.beginTransmission address ;;
  Wire.write 0 ;;
  Wire.write 255 ;;
  _ <- Wire.endTransmission bus ;;
  Wire.beginTransmission address ;;
  Wire.write 0 ;;
  _ <- Wire.endTransmission bus ;;
  _ <- Wire.requestFrom bus address 1 ;;
  r <- Wire.read bus ;;
  let data := u8 r in
  if data =? 255 then ret IIC_MCP23008
  else if data =? 0 then ret IIC_PCF8574
  else ret IIC_UNKNOWN.

(** The body of [for (address = 0; address <= 127; address++)], run on
    the addresses still to visit; [continue] is the recursive call,
    [break] leaves with the address. *)
Fixpoint LocateDevice_scan (addresses : list Z) : WireM Z :=
  match addresses with
  | [] => ret IIC_ADDR_UNKNOWN
  | address :: rest =>
      Wire.beginTransmission address ;;
      error <- Wire.endTransmission bus ;;
      if error =? 0 then
        ty <- IdentifyIOexp address ;;
        if iicChipType_eqb ty IIC_UNKNOWN
        then LocateDevice_scan rest
        else ret address
      else LocateDevice_scan rest
  end.

Definition all_addresses : list Z := map Z.of_nat (seq 0 128).

Definition LocateDevice : WireM Z := LocateDevice_scan all_addresses.

(** [init] hands back its [int] status and the object. *)
Definition init (lcd : LiquidCrystal_IIC) : WireM (Z * LiquidCrystal_IIC) :=
  Wire.begin ;;
  a <- (if _Addr lcd =? IIC_ADDR_UNKNOWN
        then LocateDevice else ret (_Addr lcd)) ;;
  let lcd := set_Addr a lcd in
  if _Addr lcd =? IIC_ADDR_UNKNOWN then ret (-1, lcd)
  else
    ty <- (if iicChipType_eqb (_iicType lcd) IIC_UNKNOWN
           then IdentifyIOexp (_Addr lcd) else ret (_iicType lcd)) ;;
    let lcd := set_iicType ty lcd in
    if iicChipType_eqb (_iicType lcd) IIC_UNKNOWN then ret (-1, lcd)
    else
      Wire.begin_as (_Addr lcd) ;;
      Wire.beginTransmission (_Addr lcd) ;;
      (if iicChipType_eqb (_iicType lcd) IIC_MCP23008 then
         Wire.write 5 ;;
         Wire.write 32 ;;
         _ <- Wire.endTransmission bus ;;
         Wire.beginTransmission (_Addr lcd) ;;
         Wire.write 0 ;;
         Wire.write 0 ;;
         _ <- Wire.endTransmission bus ;;
         Wire.beginTransmission (_Addr lcd) ;;
         Wire.write 10
       else ret tt) ;;
      Wire.write 0 ;;
      status <- Wire.endTransmission bus ;;
      let lcd :=
        set_displayfunction
          (Z.lor (Z.lor LCD_4BITMODE LCD_1LINE) LCD_5x8DOTS) lcd in
      ret (status, lcd).

Definition pulseEnable (data : Z) (lcd : LiquidCrystal_IIC) : WireM unit :=
  Wire.write (Z.lor data (_En lcd)) ;;
  Wire.write (Z.land data (Z.lnot (_En lcd))).

(** The loop of [write4bits], [n] rounds from index [i]. *)
Fixpoint map_data_pins (pins : list Z) (n : nat) (i : nat)
  (value pinMapValue : Z) : Z :=
  match n with
  | O => pinMapValue
  | S n' =>
      let pinMapValue' :=
        if Z.land value 1 =? 1
        then Z.lor pinMapValue (nth i pins 0)
        else pinMapValue in
      map_data_pins pins n' (S i) (Z.shiftr value 1) pinMapValue'
  end.

(** The byte that [write4bits] passes to [pulseEnable]. *)
Definition pinMapValue_of (value mode : Z) (lcd : LiquidCrystal_IIC) : Z :=
  let pinMapValue := map_data_pins (_data_pins lcd) 4 0 value 0 in
  let mode := if mode =? DATA then _Rs lcd else mode in
  Z.lor pinMapValue (Z.lor mode (_backlightStsMask lcd)).

Definition write4bits (value mode : Z) (lcd : LiquidCrystal_IIC)
  : WireM unit :=
  pulseEnable (pinMapValue_of value mode lcd) lcd.

Definition send (value mode : Z) (lcd : LiquidCrystal_IIC)
  : WireM LiquidCrystal_IIC :=
  if _Addr lcd =? IIC_ADDR_UNKNOWN then ret lcd
  else if mode =? FOUR_BITS then
    Wire.beginTransmission (_Addr lcd) ;;
    point_to_OLAT lcd ;;
    write4bits (Z.land value 15) COMMAND lcd ;;
    _ <- Wire.endTransmission bus ;;
    ret lcd
  else if (mode =? DATA) && ((value =? 13) || (value =? 10)) then ret lcd
  else
    Wire.beginTransmission (_Addr lcd) ;;
    point_to_OLAT lcd ;;
    write4bits (Z.shiftr value 4) mode lcd ;;
    write4bits (Z.land value 15) mode lcd ;;
    _ <- Wire.endTransmission bus ;;
    ret lcd.

(** A run of [send] calls, one after the other. *)
Fixpoint send_all (calls : list (Z * Z)) (lcd : LiquidCrystal_IIC)
  : WireM LiquidCrystal_IIC :=
  match calls with
  | [] => ret lcd
  | (value, mode) :: rest =>
      lcd' <- send value mode lcd ;;
      send_all rest lcd'
  end.

(** A run of [setBacklight] calls, one after the other. *)
Fixpoint setBacklight_all (levels : list Z) (lcd : LiquidCrystal_IIC)
  : WireM LiquidCrystal_IIC :=
  match levels with
  | [] => ret lcd
  | value :: rest =>
      lcd' <- setBacklight value lcd ;;
      setBacklight_all rest lcd'
  end.

End Driver.

(** ** I2CIO.cpp *)

(** The members of [I2CIO].  Their declarations are in [I2CIO.h], which
    is not among the sources: [_initialised] is assigned [false] by the
    constructor and only ever tested, a [bool]; [_chipType] is tested
    with [!], a number. *)
Record I2CIO : Type := mkI2CIO {
  _i2cAddr : Z;
  _dirMask : Z;
  _shadow : Z;
  _initialised : bool;
  _chipType : Z
}.

Definition set_dirMask (m : Z) (io : I2CIO) : I2CIO :=
  mkI2CIO (_i2cAddr io) m (_shadow io) (_initialised io) (_chipType io).

Definition set_shadow (v : Z) (io : I2CIO) : I2CIO :=
  mkI2CIO (_i2cAddr io) (_dirMask io) v (_initialised io) (_chipType io).

Definition set_initialised (b : bool) (io : I2CIO) : I2CIO :=
  mkI2CIO (_i2cAddr io) (_dirMask io) (_shadow io) b (_chipType io).

Section Expander.
Context {h : I2CIO_h}.
Variable bus : Bus.

(** The constructor leaves [_chipType] unassigned: whatever the memory
    holds, [chipType] here. *)
Definition I2CIO_new (chipType : Z) : I2CIO :=
  {| _i2cAddr := 0;
     _dirMask := 255;
     _shadow := 0;
     _initialised := false;
     _chipType := chipType |}.

Definition I2CIO_pinMode (pin dir : Z) (io : I2CIO) : I2CIO :=
  if _initialised io then
    if OUTPUT =? dir
    then set_dirMask (Z.land (_dirMask io) (Z.lnot (Z.shiftl 1 pin))) io
    else set_dirMask (u8 (Z.lor (_dirMask io) (Z.shiftl 1 pin))) io
  else io.

Definition I2CIO_portMode (dir : Z) (io : I2CIO) : I2CIO :=
  if _initialised io then
    if dir =? INPUT then set_dirMask 255 io else set_dirMask 0 io
  else io.

Definition I2CIO_read (cmd : Z) (io : I2CIO) : WireM Z :=
  if _initialised io then
    (if _chipType io =? 0 then
       Wire.beginTransmission (_i2cAddr io) ;;
       Wire.write cmd ;;
       _ <- Wire.endTransmission bus ;;
       ret tt
     else ret tt) ;;
    _ <- Wire.requestFrom bus (_i2cAddr io) 1 ;;
    r <- Wire.read bus ;;
    ret (Z.land (_dirMask io) r)
  else ret 0.

(** [write] hands back [(status == 0)] and the object. *)
Definition I2CIO_write (cmd value : Z) (io : I2CIO) : WireM (Z * I2CIO) :=
  r <- (if _initialised io then
          let io := set_shadow (Z.land value (Z.lnot (_dirMask io))) io in
          Wire.beginTransmission (_i2cAddr io) ;;
          (if _chipType io =? 0 then Wire.write cmd else ret tt) ;;
          Wire.write (_shadow io) ;;
          status <- Wire.endTransmission bus ;;
          ret (status, io)
        else ret (0, io)) ;;
  let (status, io) := (r : Z * I2CIO) in
  ret (Z.b2z (status =? 0), io).

Definition I2CIO_digitalRead (pin : Z) (io : I2CIO) : WireM Z :=
  if _initialised io && (pin <=? 7) then
    r <- I2CIO_read MCP23008_GPIO io ;;
    let pinVal := Z.land r (_dirMask io) in
    ret (Z.land (Z.shiftr pinVal pin) 1)
  else ret 0.

Definition I2CIO_digitalWrite (pin level : Z) (io : I2CIO)
  : WireM (Z * I2CIO) :=
  if _initialised io && (pin <=? 7) then
    let writeVal := Z.land (Z.shiftl 1 pin) (Z.lnot (_dirMask io)) in
    let io :=
      if level =? HIGH
      then set_shadow (Z.lor (_shadow io) writeVal) io
      else set_shadow (Z.land (_shadow io) (Z.lnot writeVal)) io in
    I2CIO_write MCP23008_GPIO (_shadow io) io
  else ret (0, io).

Definition I2CIO_begin (i2cAddr chiptype : Z) (io : I2CIO)
  : WireM (Z * I2CIO) :=
  let io := mkI2CIO i2cAddr (_dirMask io) (_shadow io) (_initialised io)
                    chiptype in
  Wire.begin ;;
  io <- (if _chipType io =? 0 then
           Wire.beginTransmission i2cAddr ;;
           r1 <- I2CIO_write MCP23008_IOCON 32 io ;;
           r2 <- I2CIO_write MCP23008_IODIR 0 (snd r1) ;;
           r3 <- I2CIO_write MCP23008_GPIO 0 (snd r2) ;;
           _ <- Wire.endTransmission bus ;;
           ret (snd r3)
         else ret io) ;;
  n <- Wire.requestFrom bus (_i2cAddr io) 1 ;;
  let io := set_initialised (negb (n =? 0)) io in
  r <- Wire.read bus ;;
  let io := set_shadow (u8 r) io in
  ret (Z.b2z (_initialised io), io).

End Expander.

(** ** What the theorems are stated with *)

(** The calls of [IdentifyIOexp] at [address], in order. *)
Definition probe_calls (address : Z) : Trace :=
  [BeginTransmission address; Write 0; Write 255; EndTransmission;
   BeginTransmission address; Write 0; EndTransmission;
   RequestFrom address 1; Read].

(** The pointer byte that opens a transaction with an MCP23008. *)
Definition OLAT_pointer (lcd : LiquidCrystal_IIC) : Trace :=
  match _iicType lcd with
  | IIC_MCP23008 => [Write 10]
  | _ => []
  end.

(** One enable pulse: the byte with the enable bit, then without. *)
Definition enable_pulse (rendered : Z) (lcd : LiquidCrystal_IIC) : Trace :=
  [Write (Z.lor rendered (_En lcd));
   Write (Z.land rendered (Z.lnot (_En lcd)))].

(** The union of the pin masks of the object. *)
Definition configured_bits (lcd : LiquidCrystal_IIC) : Z :=
  fold_right Z.lor 0
    ([_En lcd; _Rw lcd; _Rs lcd] ++ _data_pins lcd
       ++ [_backlightPinMask lcd]).

(** [renderNibble] as the specification words it: the entry of
    [dataBits] for each set bit of the nibble, the register-select bit
    in data mode only, the backlight status mask always. *)
Definition data_bit (dataBits : list Z) (nibble : Z) (i : nat) : Z :=
  if Z.testbit nibble (Z.of_nat i) then nth i dataBits 0 else 0.

Definition renderNibble (lcd : LiquidCrystal_IIC) (nibble : Z)
  (isDataMode : bool) (backlightStatusMask : Z) : Z :=
  let dataBits := _data_pins lcd in
  Z.lor
    (Z.lor
       (Z.lor (Z.lor (Z.lor (data_bit dataBits nibble 0)
                            (data_bit dataBits nibble 1))
                     (data_bit dataBits nibble 2))
              (data_bit dataBits nibble 3))
       (if isDataMode then _Rs lcd else 0))
    backlightStatusMask.

(** The status mask by polarity and requested level: the backlight bit
    is driven high to light a Positive backlight and low to light a
    Negative one. *)
Definition backlight_status (pol : t_backlighPol) (backlightBit level : Z)
  : Z :=
  match pol with
  | POSITIVE => if 0 <? level then backlightBit else 0
  | NEGATIVE => if level =? 0 then backlightBit else 0
  end.

(** *** A bus of plain devices

    [present a] tells whether a device acknowledges address [a], and
    [echo a] is the byte it answers a read with.  The address of a
    transfer is the one of the newest [beginTransmission], the address
    of a read the one of the newest [requestFrom]. *)
Fixpoint opened_in (newest_first : Trace) : Z :=
  match newest_first with
  | [] => 0
  | BeginTransmission a :: _ => a
  | _ :: older => opened_in older
  end.

Fixpoint requested_in (newest_first : Trace) : Z :=
  match newest_first with
  | [] => 0
  | RequestFrom a _ :: _ => a
  | _ :: older => requested_in older
  end.

Definition simple_bus (present : Z -> bool) (echo : Z -> Z) : Bus :=
  {| bus_endTransmission t :=
       if present (opened_in (rev t)) then 0 else 2;
     bus_requestFrom t a n := if present a then n else 0;
     bus_read t :=
       let a := requested_in (rev t) in
       if present a then echo a else -1 |}.

(** A device that [IdentifyIOexp] recognises at [a]. *)
Definition identified (present : Z -> bool) (echo : Z -> Z) (a : Z) : bool :=
  present a && ((u8 (echo a) =? 255) || (u8 (echo a) =? 0)).

(** The calls of one round of the scan of [LocateDevice]. *)
Definition visit_calls (present : Z -> bool) (a : Z) : Trace :=
  [BeginTransmission a; EndTransmission]
    ++ (if present a then probe_calls a else []).

Definition addresses_upto (k : Z) : list Z :=
  map Z.of_nat (seq 0 (S (Z.to_nat k))).

(** *** Values to run the code on *)

(** Values for the constants of the headers, to evaluate the code with:
    those of the headers of the library that the class extends.  The
    theorems hold for all values that meet their hypotheses. *)
Definition sample_LCD_h : LCD_h :=
  {| COMMAND := 0; DATA := 1; FOUR_BITS := 2;
     LCD_4BITMODE := 0; LCD_1LINE := 0; LCD_5x8DOTS := 0 |}.

Definition sample_I2CIO_h : I2CIO_h :=
  {| MCP23008_IODIR := 0; MCP23008_IOCON := 5; MCP23008_GPIO := 9;
     HIGH := 1; INPUT := 0; OUTPUT := 1 |}.

(** [LiquidCrystal_IIC lcd(addr, IIC_BOARD_EXTRAIO)] *)
Definition board_EXTRAIO (addr : Z) : LiquidCrystal_IIC :=
  config addr IIC_PCF8574 6 5 4 0 1 2 3.

(** [LiquidCrystal_IIC lcd(addr, IIC_BOARD_YWROBOT)] *)
Definition board_YWROBOT (addr : Z) : LiquidCrystal_IIC :=
  LiquidCrystal_IIC_bl addr IIC_PCF8574 2 1 0 4 5 6 7 3 POSITIVE.

(** [LiquidCrystal_IIC lcd(addr, IIC_BOARD_LCM1602)] *)
Definition board_LCM1602 (addr : Z) : LiquidCrystal_IIC :=
  LiquidCrystal_IIC_bl addr IIC_PCF8574 2 1 0 4 5 6 7 3 NEGATIVE.

(** [LiquidCrystal_IIC lcd(addr, IIC_BOARD_ADAFRUIT)] *)
Definition board_ADAFRUIT (addr : Z) : LiquidCrystal_IIC :=
  LiquidCrystal_IIC_bl addr IIC_MCP23008 2 0 1 3 4 5 6 7 POSITIVE.

(** The backward compatible constructor: chip type to be detected. *)
Definition autodetect_0x27 : LiquidCrystal_IIC :=
  config 39 IIC_UNKNOWN 2 1 0 4 5 6 7.

(** One device, at [a], that answers every read with [b]. *)
Definition one_device (a b : Z) : Bus :=
  simple_bus (fun x => x =? a) (fun _ => b).

(** No device at all. *)
Definition empty_bus : Bus := simple_bus (fun _ => false) (fun _ => 0).

(** *** Bytes, pins and wiring *)

Definition is_byte (x : Z) : bool := (0 <=? x) && (x <? 256).

(** The members that hold a pin mask or the status mask are bytes. *)
Definition byte_fields (lcd : LiquidCrystal_IIC) : bool :=
  is_byte (_backlightPinMask lcd) && is_byte (_backlightStsMask lcd)
  && is_byte (_En lcd) && is_byte (_Rs lcd)
  && forallb is_byte (_data_pins lcd).

(** Every argument handed to [Wire.write] in the trace is a byte. *)
Definition writes_bytes (t : Trace) : bool :=
  forallb (fun op => match op with Write b => is_byte b | _ => true end) t.

(** The object holds the masks that the constructors make of these pin
    numbers, and its status mask is 0 or the backlight pin mask. *)
Definition wired (lcd : LiquidCrystal_IIC) (En Rw Rs d4 d5 d6 d7 bl : Z)
  : Prop :=
  _En lcd = u8 (Z.shiftl 1 En)
  /\ _Rw lcd = u8 (Z.shiftl 1 Rw)
  /\ _Rs lcd = u8 (Z.shiftl 1 Rs)
  /\ _data_pins lcd = [u8 (Z.shiftl 1 d4); u8 (Z.shiftl 1 d5);
                       u8 (Z.shiftl 1 d6); u8 (Z.shiftl 1 d7)]
  /\ _backlightPinMask lcd = u8 (Z.shiftl 1 bl)
  /\ (_backlightStsMask lcd = 0
      \/ _backlightStsMask lcd = _backlightPinMask lcd).

(** Pin numbers of the expander port, no two alike. *)
Definition port_pins (pins : list Z) : Prop :=
  NoDup pins /\ Forall (fun p => 0 <= p <= 7) pins.

(** The constructors that leave the chip type to be detected. *)
Definition LiquidCrystal_IIC_auto (iic_addr En Rw Rs d4 d5 d6 d7 : Z)
  : LiquidCrystal_IIC :=
  config iic_addr IIC_UNKNOWN En Rw Rs d4 d5 d6 d7.

Definition LiquidCrystal_IIC_auto_bl
  (iic_addr En Rw Rs d4 d5 d6 d7 backlightPin : Z) (pol : t_backlighPol)
  : LiquidCrystal_IIC :=
  setBacklightPin backlightPin pol
    (config iic_addr IIC_UNKNOWN En Rw Rs d4 d5 d6 d7).

(** The calls by which [init] configures the expander of type [ty] at
    address [a], after [Wire.begin()]. *)
Definition configure_calls (a : Z) (ty : iicChipType) : Trace :=
  [BeginAs a; BeginTransmission a]
    ++ match ty with
       | IIC_MCP23008 =>
           [Write 5; Write 32; EndTransmission;
            BeginTransmission a; Write 0; Write 0; EndTransmission;
            BeginTransmission a; Write 10]
       | _ => []
       end
    ++ [Write 0; EndTransmission].

(** The members of an [I2CIO] that hold port values are bytes. *)
Definition io_bytes (io : I2CIO) : bool :=
  is_byte (_dirMask io) && is_byte (_shadow io).

(** ** Tactics *)

Ltac flatten_trace :=
  repeat rewrite <- app_assoc; cbn [app].

Ltac run_wire :=
  cbv [bind ret emit Wire.begin Wire.begin_as Wire.beginTransmission
       Wire.write Wire.endTransmission Wire.requestFrom Wire.read
       value_of trace_of fst snd];
  flatten_trace.

Ltac split_pins :=
  repeat match goal with
    | H : port_pins _ |- _ => destruct H
    | H : NoDup (_ :: _) |- _ =>
        apply NoDup_cons_iff in H; destruct H
    | H : Forall _ (_ :: _) |- _ =>
        apply Forall_cons_iff in H; destruct H
    | H : ~ In _ (_ :: _) |- _ => progress cbn [In] in H
    | H : ~ (_ \/ _) |- _ => apply Decidable.not_or in H; destruct H
    end.

(** [lia] on the bounds alone: it would split on every [<>]. *)
Ltac bounds_lia :=
  repeat match goal with H : _ <> _ |- _ => clear H end; lia.

Ltac decide_pins :=
  repeat match goal with
    | |- context [?a =? ?b] => destruct (Z.eqb_spec a b); try congruence
    | |- context [?a <? ?b] => destruct (Z.ltb_spec a b); try bounds_lia
    end.

(** ** The monad *)

Lemma bind_run {A B : Type} (c : WireM A) (k : A -> WireM B) (t : Trace) :
  bind c k t = k (fst (c t)) (snd (c t)).
Proof. unfold bind. destruct (c t). reflexivity. Qed.

(** ** ChipIdentifier: [IdentifyIOexp] *)

Lemma IdentifyIOexp_run (bus : Bus) (address : Z) (t : Trace) :
  IdentifyIOexp bus address t =
  (let data :=
     u8 (bus_read bus
           (t ++ [BeginTransmission address; Write 0; Write 255;
                  EndTransmission; BeginTransmission address; Write 0;
                  EndTransmission; RequestFrom address 1])) in
   if data =? 255 then IIC_MCP23008
   else if data =? 0 then IIC_PCF8574 else IIC_UNKNOWN,
   t ++ probe_calls address).
Proof.
  unfold IdentifyIOexp, probe_calls. run_wire.
  destruct (u8 _ =? 255); [reflexivity|].
  destruct (u8 _ =? 0); reflexivity.
Qed.

(** C1.  [IdentifyIOexp(address)] makes its calls in this order: one
    transaction that writes 0x00 then 0xFF, a second transaction that
    writes 0x00, then a request of one byte and its read.  The byte read
    decides the result: 0xFF is MCP23008, 0x00 is PCF8574, and every
    other byte (0x01, 0x7F and 0x80 among them) is the value
    [IIC_UNKNOWN]; the function always returns. *)
Theorem IdentifyIOexp_probe_and_classification :
  forall (bus : Bus) (address : Z) (t : Trace),
    let data :=
      u8 (bus_read bus
            (t ++ [BeginTransmission address; Write 0; Write 255;
                   EndTransmission; BeginTransmission address; Write 0;
                   EndTransmission; RequestFrom address 1])) in
    let chiptype := value_of (IdentifyIOexp bus address t) in
    trace_of (IdentifyIOexp bus address t)
      = t ++ [BeginTransmission address; Write 0; Write 255;
              EndTransmission;
              BeginTransmission address; Write 0; EndTransmission;
              RequestFrom address 1; Read]
    /\ (data = 255 -> chiptype = IIC_MCP23008)
    /\ (data = 0 -> chiptype = IIC_PCF8574)
    /\ (data <> 255 -> data <> 0 -> chiptype = IIC_UNKNOWN)
    /\ (data = 1 \/ data = 127 \/ data = 128 -> chiptype = IIC_UNKNOWN).
Proof.
  intros bus address t data chiptype.
  subst chiptype. rewrite IdentifyIOexp_run. fold data.
  unfold value_of, trace_of, probe_calls; cbn [fst snd].
  split; [reflexivity|].
  split; [intros ->; reflexivity|].
  split; [intros ->; reflexivity|].
  assert (Hother : data <> 255 -> data <> 0 ->
                   (if data =? 255 then IIC_MCP23008
                    else if data =? 0 then IIC_PCF8574 else IIC_UNKNOWN)
                   = IIC_UNKNOWN).
  { intros H255 H0.
    destruct (Z.eqb_spec data 255); [contradiction|].
    destruct (Z.eqb_spec data 0); [contradiction|reflexivity]. }
  split; [exact Hother|].
  intros H; apply Hother; lia.
Qed.

Lemma IdentifyIOexp_probe_and_classification_witness :
  value_of (IdentifyIOexp (one_device 39 127) 39 []) = IIC_UNKNOWN.
Proof.
  destruct (IdentifyIOexp_probe_and_classification (one_device 39 127) 39 [])
    as (_ & _ & _ & H & _).
  apply H; vm_compute; discriminate.
Defined.

(** ** DeviceLocator: [LocateDevice] *)

Lemma opened_in_last (t : Trace) (a : Z) :
  opened_in (rev (t ++ [BeginTransmission a])) = a.
Proof. rewrite rev_app_distr. reflexivity. Qed.

Lemma requested_in_probe (t : Trace) (a : Z) :
  requested_in
    (rev (t ++ [BeginTransmission a; Write 0; Write 255; EndTransmission;
                BeginTransmission a; Write 0; EndTransmission;
                RequestFrom a 1])) = a.
Proof. rewrite rev_app_distr. reflexivity. Qed.

(** One round of the scan on a bus of plain devices. *)
Lemma LocateDevice_scan_step (present : Z -> bool) (echo : Z -> Z)
  (a : Z) (rest : list Z) (t : Trace) :
  LocateDevice_scan (simple_bus present echo) (a :: rest) t =
  if identified present echo a
  then (a, t ++ visit_calls present a)
  else LocateDevice_scan (simple_bus present echo) rest
         (t ++ visit_calls present a).
Proof.
  cbn [LocateDevice_scan].
  unfold bind at 1. unfold Wire.beginTransmission, emit.
  unfold bind at 1. unfold Wire.endTransmission.
  cbn [bus_endTransmission simple_bus].
  rewrite opened_in_last.
  unfold identified, visit_calls.
  destruct (present a) eqn:Hp; cbn [andb].
  - change (u8 0 =? 0) with true. cbv iota.
    unfold bind at 1. rewrite IdentifyIOexp_run.
    cbn [bus_read simple_bus].
    rewrite requested_in_probe. rewrite Hp. flatten_trace.
    destruct (u8 (echo a) =? 255); cbn [orb iicChipType_eqb].
    + unfold ret. reflexivity.
    + destruct (u8 (echo a) =? 0); cbn [iicChipType_eqb].
      * unfold ret. reflexivity.
      * reflexivity.
  - change (u8 2 =? 0) with false. cbv iota.
    flatten_trace. reflexivity.
Qed.

Lemma LocateDevice_scan_none (present : Z -> bool) (echo : Z -> Z) :
  forall (l : list Z) (t : Trace),
    (forall a, In a l -> identified present echo a = false) ->
    LocateDevice_scan (simple_bus present echo) l t
    = (IIC_ADDR_UNKNOWN, t ++ flat_map (visit_calls present) l).
Proof.
  induction l as [|a l IH]; intros t Hnone.
  - cbn. rewrite app_nil_r. reflexivity.
  - rewrite LocateDevice_scan_step.
    rewrite (Hnone a (or_introl eq_refl)).
    rewrite IH by (intros b Hb; apply Hnone; right; exact Hb).
    cbn [flat_map]. rewrite app_assoc. reflexivity.
Qed.

Lemma LocateDevice_scan_first (present : Z -> bool) (echo : Z -> Z) :
  forall (before : list Z) (k : Z) (after : list Z) (t : Trace),
    (forall a, In a before -> identified present echo a = false) ->
    identified present echo k = true ->
    LocateDevice_scan (simple_bus present echo) (before ++ k :: after) t
    = (k, t ++ flat_map (visit_calls present) (before ++ [k])).
Proof.
  induction before as [|a l IH]; intros k after t Hnone Hk.
  - cbn [app]. rewrite LocateDevice_scan_step, Hk.
    cbn. rewrite app_nil_r. reflexivity.
  - cbn [app]. rewrite LocateDevice_scan_step.
    rewrite (Hnone a (or_introl eq_refl)).
    rewrite IH by (try assumption; intros b Hb; apply Hnone; right; exact Hb).
    cbn [flat_map]. rewrite app_assoc. reflexivity.
Qed.

Lemma all_addresses_split (k : Z) :
  0 <= k <= 127 ->
  all_addresses
  = map Z.of_nat (seq 0 (Z.to_nat k)) ++ k
      :: map Z.of_nat (seq (S (Z.to_nat k)) (127 - Z.to_nat k)).
Proof.
  intros Hk. unfold all_addresses.
  replace 128%nat with (Z.to_nat k + S (127 - Z.to_nat k))%nat by lia.
  rewrite seq_app, map_app. cbn [seq map plus].
  rewrite Z2Nat.id by lia. reflexivity.
Qed.

Lemma addresses_upto_split (k : Z) :
  0 <= k ->
  addresses_upto k = map Z.of_nat (seq 0 (Z.to_nat k)) ++ [k].
Proof.
  intros Hk. unfold addresses_upto.
  rewrite seq_S, map_app. cbn [map plus].
  rewrite Z2Nat.id by lia. reflexivity.
Qed.

Lemma in_addresses_below (k j : Z) :
  In j (map Z.of_nat (seq 0 (Z.to_nat k))) -> 0 <= j < k.
Proof.
  rewrite in_map_iff. intros (n & <- & Hn). apply in_seq in Hn. lia.
Qed.

(** C2.  On a bus of plain devices, [LocateDevice] visits the addresses
    0, 1, 2, ... in ascending order, each with an open/close
    transaction followed, when the address acknowledged, by the calls of
    [IdentifyIOexp].  It returns the first address [k] of 0..127 whose
    device is identified, having passed over every smaller address
    (acknowledging or not), and stops there; when no address of 0..127
    is identified it has visited all 128 and returns
    [IIC_ADDR_UNKNOWN]. *)
Theorem LocateDevice_first_identified :
  forall (present : Z -> bool) (echo : Z -> Z) (t : Trace),
    let bus := simple_bus present echo in
    (forall k,
        0 <= k <= 127 ->
        identified present echo k = true ->
        (forall j, 0 <= j < k -> identified present echo j = false) ->
        LocateDevice bus t
        = (k, t ++ flat_map (visit_calls present) (addresses_upto k)))
    /\ ((forall j, 0 <= j <= 127 -> identified present echo j = false) ->
        LocateDevice bus t
        = (IIC_ADDR_UNKNOWN,
           t ++ flat_map (visit_calls present) (addresses_upto 127))).
Proof.
  intros present echo t bus. subst bus. unfold LocateDevice. split.
  - intros k Hk Hid Hbefore.
    rewrite (all_addresses_split k Hk).
    rewrite LocateDevice_scan_first; try assumption.
    + rewrite addresses_upto_split by lia. reflexivity.
    + intros a Ha. apply Hbefore. apply in_addresses_below. exact Ha.
  - intros Hnone.
    rewrite LocateDevice_scan_none.
    + reflexivity.
    + intros a Ha. apply Hnone. unfold all_addresses in Ha.
      apply (in_addresses_below 128) in Ha. lia.
Qed.

Lemma LocateDevice_first_identified_witness :
  LocateDevice (simple_bus (fun a => (a =? 59) || (a =? 64))
                           (fun a => if a =? 59 then 127 else 0)) []
  = (64,
     [] ++ flat_map (visit_calls (fun a => (a =? 59) || (a =? 64)))
                    (addresses_upto 64)).
Proof.
  apply (LocateDevice_first_identified
           (fun a => (a =? 59) || (a =? 64))
           (fun a => if a =? 59 then 127 else 0) []).
  - lia.
  - reflexivity.
  - intros j Hj. unfold identified.
    destruct (Z.eqb_spec j 59) as [->|H59]; [reflexivity|].
    destruct (Z.eqb_spec j 64) as [->|H64]; [lia|reflexivity].
Defined.

(** ** LcdTransactionDriver: [send], [write4bits], [setBacklight] *)

Section DriverFacts.
Context {h : LCD_h}.
Variable bus : Bus.

Lemma point_to_OLAT_run (lcd : LiquidCrystal_IIC) (t : Trace) :
  point_to_OLAT lcd t = (tt, t ++ OLAT_pointer lcd).
Proof.
  unfold point_to_OLAT, OLAT_pointer.
  destruct (_iicType lcd); cbn [iicChipType_eqb]; run_wire;
    rewrite ?app_nil_r; reflexivity.
Qed.

Lemma write4bits_run (value mode : Z) (lcd : LiquidCrystal_IIC) (t : Trace) :
  write4bits value mode lcd t
  = (tt, t ++ enable_pulse (pinMapValue_of value mode lcd) lcd).
Proof. unfold write4bits, pulseEnable, enable_pulse. run_wire. reflexivity. Qed.

Lemma send_unresolved (value mode : Z) (lcd : LiquidCrystal_IIC) (t : Trace) :
  _Addr lcd = IIC_ADDR_UNKNOWN -> send bus value mode lcd t = (lcd, t).
Proof.
  intros H. unfold send. rewrite H. reflexivity.
Qed.

Lemma send_FOUR_BITS (value : Z) (lcd : LiquidCrystal_IIC) (t : Trace) :
  _Addr lcd <> IIC_ADDR_UNKNOWN ->
  send bus value FOUR_BITS lcd t
  = (lcd,
     t ++ [BeginTransmission (_Addr lcd)] ++ OLAT_pointer lcd
       ++ enable_pulse (pinMapValue_of (Z.land value 15) COMMAND lcd) lcd
       ++ [EndTransmission]).
Proof.
  intros H. unfold send.
  destruct (Z.eqb_spec (_Addr lcd) IIC_ADDR_UNKNOWN); [contradiction|].
  rewrite Z.eqb_refl.
  unfold bind at 1. unfold Wire.beginTransmission, emit.
  unfold bind at 1. rewrite point_to_OLAT_run.
  unfold bind at 1. rewrite write4bits_run.
  run_wire. reflexivity.
Qed.

Lemma send_tossed (value : Z) (lcd : LiquidCrystal_IIC) (t : Trace) :
  DATA <> FOUR_BITS ->
  value = 13 \/ value = 10 ->
  send bus value DATA lcd t = (lcd, t).
Proof.
  intros Hd Hv. unfold send.
  destruct (_Addr lcd =? IIC_ADDR_UNKNOWN); [reflexivity|].
  destruct (Z.eqb_spec DATA FOUR_BITS); [contradiction|].
  rewrite Z.eqb_refl.
  destruct Hv as [-> | ->]; reflexivity.
Qed.

Lemma send_full_byte (value mode : Z) (lcd : LiquidCrystal_IIC) (t : Trace) :
  _Addr lcd <> IIC_ADDR_UNKNOWN ->
  mode <> FOUR_BITS ->
  ~ (mode = DATA /\ (value = 13 \/ value = 10)) ->
  send bus value mode lcd t
  = (lcd,
     t ++ [BeginTransmission (_Addr lcd)] ++ OLAT_pointer lcd
       ++ enable_pulse (pinMapValue_of (Z.shiftr value 4) mode lcd) lcd
       ++ enable_pulse (pinMapValue_of (Z.land value 15) mode lcd) lcd
       ++ [EndTransmission]).
Proof.
  intros Ha Hm Hv. unfold send.
  destruct (Z.eqb_spec (_Addr lcd) IIC_ADDR_UNKNOWN); [contradiction|].
  destruct (Z.eqb_spec mode FOUR_BITS); [contradiction|].
  assert (Hskip : (mode =? DATA) && ((value =? 13) || (value =? 10)) = false).
  { destruct (Z.eqb_spec mode DATA); [|reflexivity].
    destruct (Z.eqb_spec value 13); [exfalso; apply Hv; auto|].
    destruct (Z.eqb_spec value 10); [exfalso; apply Hv; auto|].
    reflexivity. }
  rewrite Hskip.
  unfold bind at 1. unfold Wire.beginTransmission, emit.
  unfold bind at 1. rewrite point_to_OLAT_run.
  unfold bind at 1. rewrite write4bits_run.
  unfold bind at 1. rewrite write4bits_run.
  run_wire. reflexivity.
Qed.

End DriverFacts.

Section BacklightFacts.
Variable bus : Bus.

Lemma setBacklight_run (level : Z) (lcd : LiquidCrystal_IIC) (t : Trace) :
  _backlightPinMask lcd <> 0 ->
  let sts :=
    backlight_status (_polarity lcd) (_backlightPinMask lcd) level in
  setBacklight bus level lcd t
  = (set_backlightStsMask sts lcd,
     t ++ [BeginTransmission (_Addr lcd)] ++ OLAT_pointer lcd
       ++ [Write sts; EndTransmission]).
Proof.
  intros Hmask sts. subst sts. unfold setBacklight, backlight_status.
  destruct (Z.eqb_spec (_backlightPinMask lcd) 0); [contradiction|].
  cbn [negb].
  destruct (_polarity lcd); cbn [t_backlighPol_eqb andb orb];
    rewrite ?orb_false_r.
  - destruct (0 <? level);
      unfold bind at 1; unfold Wire.beginTransmission, emit;
      unfold bind at 1; rewrite point_to_OLAT_run;
      run_wire; reflexivity.
  - destruct (level =? 0);
      unfold bind at 1; unfold Wire.beginTransmission, emit;
      unfold bind at 1; rewrite point_to_OLAT_run;
      run_wire; reflexivity.
Qed.

Lemma setBacklight_all_snoc (levels : list Z) (level : Z) :
  forall (lcd : LiquidCrystal_IIC) (t : Trace),
    setBacklight_all bus (levels ++ [level]) lcd t
    = setBacklight bus level
        (value_of (setBacklight_all bus levels lcd t))
        (trace_of (setBacklight_all bus levels lcd t)).
Proof.
  induction levels as [|l levels IH]; intros lcd t.
  - cbn [app setBacklight_all]. unfold bind, ret, value_of, trace_of.
    cbn [fst snd]. destruct (setBacklight bus level lcd t). reflexivity.
  - cbn [app setBacklight_all]. unfold bind.
    destruct (setBacklight bus l lcd t) as [lcd1 t1].
    apply IH.
Qed.

(** [setBacklight] assigns no member but the status mask. *)
Lemma setBacklight_frame (level : Z) (lcd : LiquidCrystal_IIC) (t : Trace) :
  let lcd' := value_of (setBacklight bus level lcd t) in
  _backlightPinMask lcd' = _backlightPinMask lcd
  /\ _polarity lcd' = _polarity lcd
  /\ _Addr lcd' = _Addr lcd
  /\ _iicType lcd' = _iicType lcd.
Proof.
  destruct (Z.eq_dec (_backlightPinMask lcd) 0) as [H0|Hn].
  - unfold setBacklight. rewrite H0. cbn. auto.
  - cbv zeta. rewrite setBacklight_run by exact Hn. cbn. auto.
Qed.

Lemma setBacklight_all_frame (levels : list Z) :
  forall (lcd : LiquidCrystal_IIC) (t : Trace),
    let lcd' := value_of (setBacklight_all bus levels lcd t) in
    _backlightPinMask lcd' = _backlightPinMask lcd
    /\ _polarity lcd' = _polarity lcd.
Proof.
  induction levels as [|l levels IH]; intros lcd t.
  - cbn. auto.
  - cbn [setBacklight_all]. unfold bind.
    destruct (setBacklight_frame l lcd t) as (Hm & Hp & _).
    destruct (setBacklight bus l lcd t) as [lcd1 t1].
    cbn [value_of fst] in Hm, Hp.
    destruct (IH lcd1 t1) as (Hm' & Hp').
    cbv zeta. rewrite Hm', Hp'. auto.
Qed.

End BacklightFacts.

(** C3.  A full-byte [send] (mode [COMMAND] or [DATA]) on an
    object with a resolved address, other than a carriage return or a
    line feed in data mode, opens one transaction; inside it come first
    the OLAT pointer byte 0x0A when and only when the chip is an
    MCP23008, then the high nibble and after it the low nibble, each as
    the rendered byte with the enable bit followed by the rendered byte
    without it, and the transaction is closed.  In [FOUR_BITS] mode the
    one transaction carries only the low nibble of the value, rendered
    as a command. *)
Theorem send_one_transaction :
  forall (h : LCD_h) (bus : Bus) (lcd : LiquidCrystal_IIC)
         (value mode : Z) (t : Trace),
    _Addr lcd <> IIC_ADDR_UNKNOWN ->
    COMMAND <> FOUR_BITS ->
    DATA <> FOUR_BITS ->
    mode = COMMAND \/ mode = DATA ->
    ~ (mode = DATA /\ (value = 13 \/ value = 10)) ->
    let high := pinMapValue_of (Z.shiftr value 4) mode lcd in
    let low := pinMapValue_of (Z.land value 15) mode lcd in
    let nibble := pinMapValue_of (Z.land value 15) COMMAND lcd in
    let pointer :=
      match _iicType lcd with IIC_MCP23008 => [Write 10] | _ => [] end in
    send bus value mode lcd t
    = (lcd,
       t ++ [BeginTransmission (_Addr lcd)] ++ pointer
         ++ [Write (Z.lor high (_En lcd));
             Write (Z.land high (Z.lnot (_En lcd)));
             Write (Z.lor low (_En lcd));
             Write (Z.land low (Z.lnot (_En lcd)));
             EndTransmission])
    /\ send bus value FOUR_BITS lcd t
       = (lcd,
          t ++ [BeginTransmission (_Addr lcd)] ++ pointer
            ++ [Write (Z.lor nibble (_En lcd));
                Write (Z.land nibble (Z.lnot (_En lcd)));
                EndTransmission]).
Proof.
  intros h bus lcd value mode t Haddr Hc Hd Hmode Hv high low nibble pointer.
  split.
  - rewrite send_full_byte; try assumption.
    + reflexivity.
    + destruct Hmode as [-> | ->]; assumption.
  - rewrite send_FOUR_BITS by assumption. reflexivity.
Qed.

Lemma send_one_transaction_witness :
  send (h := sample_LCD_h) (one_device 32 255) 65 (@DATA sample_LCD_h)
       (board_ADAFRUIT 32) []
  = (board_ADAFRUIT 32,
     [BeginTransmission 32; Write 10;
      Write 38; Write 34; Write 14; Write 10; EndTransmission]).
Proof.
  apply (send_one_transaction sample_LCD_h (one_device 32 255)
           (board_ADAFRUIT 32) 65 1 []).
  - vm_compute; discriminate.
  - vm_compute; discriminate.
  - vm_compute; discriminate.
  - right; reflexivity.
  - intros [_ [H | H]]; discriminate H.
Defined.

(** C3, the exception: a carriage return sent as data opens no
    transaction although the address is resolved. *)
Lemma send_carriage_return_opens_no_transaction :
  _Addr (board_EXTRAIO 56) <> IIC_ADDR_UNKNOWN
  /\ send (h := sample_LCD_h) (one_device 56 0) 13 (@DATA sample_LCD_h)
          (board_EXTRAIO 56) []
     = (board_EXTRAIO 56, []).
Proof.
  split; [vm_compute; discriminate | reflexivity].
Qed.

Section SendFacts.
Context {h : LCD_h}.
Variable bus : Bus.

Lemma send_all_unresolved (calls : list (Z * Z)) :
  forall (lcd : LiquidCrystal_IIC) (t : Trace),
    _Addr lcd = IIC_ADDR_UNKNOWN ->
    send_all bus calls lcd t = (lcd, t).
Proof.
  induction calls as [|[value mode] calls IH]; intros lcd t Hlcd.
  - reflexivity.
  - cbn [send_all]. unfold bind.
    rewrite send_unresolved by exact Hlcd. apply IH. exact Hlcd.
Qed.

End SendFacts.

(** C7.  In data mode, [send] of a carriage return (0x0D) or of a line
    feed (0x0A) makes no call on the bus and hands the object back as it
    was, whatever the object.  A command of the same value is not
    tossed: on a resolved address it is sent as every command is, in one
    transaction that carries the OLAT pointer for an MCP23008, the
    enable pulse of the high nibble and the enable pulse of the low
    nibble, and is closed (the low nibble alone, should the header give
    [COMMAND] the value of [FOUR_BITS]). *)
Theorem send_tosses_CR_LF_in_data_mode :
  forall (h : LCD_h) (bus : Bus) (lcd : LiquidCrystal_IIC)
         (value : Z) (t : Trace),
    DATA <> FOUR_BITS ->
    value = 13 \/ value = 10 ->
    send bus value DATA lcd t = (lcd, t)
    /\ (COMMAND <> DATA ->
        _Addr lcd <> IIC_ADDR_UNKNOWN ->
        let high := pinMapValue_of (Z.shiftr value 4) COMMAND lcd in
        let low := pinMapValue_of (Z.land value 15) COMMAND lcd in
        let pointer :=
          match _iicType lcd with IIC_MCP23008 => [Write 10] | _ => [] end in
        send bus value COMMAND lcd t
        = (lcd,
           t ++ [BeginTransmission (_Addr lcd)] ++ pointer
             ++ (if COMMAND =? FOUR_BITS then []
                 else [Write (Z.lor high (_En lcd));
                       Write (Z.land high (Z.lnot (_En lcd)))])
             ++ [Write (Z.lor low (_En lcd));
                 Write (Z.land low (Z.lnot (_En lcd)));
                 EndTransmission])).
Proof.
  intros h bus lcd value t Hd Hv. split.
  - apply send_tossed; assumption.
  - intros Hc Haddr high low pointer.
    destruct (Z.eqb_spec COMMAND FOUR_BITS) as [Hfour | Hfull].
    + pose proof (send_FOUR_BITS bus value lcd t Haddr) as Hrun.
      rewrite <- Hfour in Hrun. rewrite Hrun. reflexivity.
    + rewrite send_full_byte; try assumption.
      * reflexivity.
      * intros [Heq _]. contradiction.
Qed.

Lemma send_tosses_CR_LF_in_data_mode_witness :
  send (h := sample_LCD_h) (one_device 39 0) 10 (@DATA sample_LCD_h)
       (board_YWROBOT 39) [Begin]
  = (board_YWROBOT 39, [Begin])
  /\ send (h := sample_LCD_h) (one_device 39 0) 10 (@COMMAND sample_LCD_h)
          (board_YWROBOT 39) [Begin]
     = (board_YWROBOT 39,
        [Begin; BeginTransmission 39;
         Write 4; Write 0; Write 164; Write 160; EndTransmission]).
Proof.
  destruct (send_tosses_CR_LF_in_data_mode sample_LCD_h (one_device 39 0)
              (board_YWROBOT 39) 10 [Begin]) as (Hdata & Hcommand).
  - vm_compute; discriminate.
  - right; reflexivity.
  - split; [exact Hdata|].
    apply Hcommand; vm_compute; discriminate.
Defined.

(** C10.  With a backlight pin configured, [setBacklight] opens a
    transaction whatever the address of the object: the transaction is
    addressed to [_Addr], carries the OLAT pointer for an MCP23008 and
    then the new status mask.  This holds when [_Addr] is still
    [IIC_ADDR_UNKNOWN] (0xFF), as on an object that was constructed for
    auto-location and never begun: the transaction is addressed to 0xFF,
    where [send] on the same object makes no call at all. *)
Theorem setBacklight_does_not_check_address :
  forall (h : LCD_h) (bus : Bus) (lcd : LiquidCrystal_IIC)
         (level value mode : Z) (t : Trace),
    _backlightPinMask lcd <> 0 ->
    let lcd' := value_of (setBacklight bus level lcd t) in
    let pointer :=
      match _iicType lcd with IIC_MCP23008 => [Write 10] | _ => [] end in
    trace_of (setBacklight bus level lcd t)
    = t ++ [BeginTransmission (_Addr lcd)] ++ pointer
        ++ [Write (_backlightStsMask lcd'); EndTransmission]
    /\ (_Addr lcd = IIC_ADDR_UNKNOWN ->
        trace_of (setBacklight bus level lcd t)
        = t ++ [BeginTransmission 255] ++ pointer
            ++ [Write (_backlightStsMask lcd'); EndTransmission]
        /\ send bus value mode lcd t = (lcd, t)).
Proof.
  intros h bus lcd level value mode t Hmask lcd' pointer.
  subst lcd'. rewrite setBacklight_run by exact Hmask.
  unfold trace_of, value_of; cbn [fst snd set_backlightStsMask
                                    _backlightStsMask].
  split; [reflexivity|].
  intros Haddr. split.
  - rewrite Haddr. reflexivity.
  - apply send_unresolved. exact Haddr.
Qed.

Lemma setBacklight_does_not_check_address_witness :
  trace_of (setBacklight empty_bus 1 (board_YWROBOT IIC_ADDR_UNKNOWN) [])
  = [BeginTransmission 255; Write 8; EndTransmission]
  /\ send (h := sample_LCD_h) empty_bus 65 (@DATA sample_LCD_h)
          (board_YWROBOT IIC_ADDR_UNKNOWN) []
     = (board_YWROBOT IIC_ADDR_UNKNOWN, []).
Proof.
  apply (setBacklight_does_not_check_address sample_LCD_h empty_bus
           (board_YWROBOT IIC_ADDR_UNKNOWN) 1 65 1 []).
  - vm_compute; discriminate.
  - reflexivity.
Defined.

(** ** [init] *)

(** C6.  When [init] ends with the address or the chip type
    unresolved it returns the status -1.  When the address is the one
    left unresolved, every later [send] makes no call on the bus and
    leaves the object as it is. *)
Theorem init_failure_status_and_send :
  forall (h : LCD_h) (bus : Bus) (lcd : LiquidCrystal_IIC) (t : Trace),
    let status := fst (value_of (init bus lcd t)) in
    let lcd' := snd (value_of (init bus lcd t)) in
    (_Addr lcd' = IIC_ADDR_UNKNOWN \/ _iicType lcd' = IIC_UNKNOWN ->
     status = -1)
    /\ (_Addr lcd' = IIC_ADDR_UNKNOWN ->
        forall (calls : list (Z * Z)) (t' : Trace),
          send_all bus calls lcd' t' = (lcd', t')).
Proof.
  intros h bus lcd t status lcd'. split.
  - subst status lcd'. unfold init.
    rewrite bind_run. rewrite bind_run.
    match goal with
    | |- context [(if ?c then LocateDevice bus else ?e) ?t0] =>
        destruct ((if c then LocateDevice bus else e) t0) as [a t1]
    end.
    cbn [fst snd set_Addr _Addr _iicType].
    destruct (Z.eqb_spec a IIC_ADDR_UNKNOWN) as [Hau | Han].
    + intros _. reflexivity.
    + rewrite bind_run.
      match goal with
      | |- context [(if ?c then IdentifyIOexp bus a else ?e) ?t0] =>
          destruct ((if c then IdentifyIOexp bus a else e) t0) as [ty t2]
      end.
      cbn [fst snd set_iicType _iicType _Addr].
      destruct ty; cbn [iicChipType_eqb].
      * intros _. reflexivity.
      * run_wire. cbn. intros [H | H]; [contradiction | discriminate].
      * run_wire. cbn. intros [H | H]; [contradiction | discriminate].
  - intros Haddr calls t'. apply send_all_unresolved. exact Haddr.
Qed.

Lemma init_failure_status_and_send_witness :
  fst (value_of (init (h := sample_LCD_h) empty_bus
                      (board_YWROBOT IIC_ADDR_UNKNOWN) [])) = -1.
Proof.
  apply (init_failure_status_and_send sample_LCD_h empty_bus
           (board_YWROBOT IIC_ADDR_UNKNOWN) []).
  left. vm_compute. reflexivity.
Defined.

(** C6, the chip type left unresolved: the device at 0x27 answers the
    probe with 0x7F, [init] returns -1 with the chip type unknown and
    the address kept, and a later [send] of the command 0x28 opens a
    transaction and writes two nibbles. *)
Lemma init_unidentified_chip_then_send_writes :
  let r := init (h := sample_LCD_h) (one_device 39 127) autodetect_0x27 [] in
  fst (value_of r) = -1
  /\ _iicType (snd (value_of r)) = IIC_UNKNOWN
  /\ _Addr (snd (value_of r)) = 39
  /\ trace_of (send (h := sample_LCD_h) (one_device 39 127) 40
                    (@COMMAND sample_LCD_h) (snd (value_of r)) [])
     = [BeginTransmission 39; Write 36; Write 32; Write 132; Write 128;
        EndTransmission].
Proof.
  vm_compute. repeat split; reflexivity.
Qed.

(** ** Backlight *)

(** C8.  With a backlight pin configured, after any run of
    [setBacklight] calls the status mask is decided by the polarity and
    by the level of the last call alone: under Positive polarity a
    non-zero level gives the backlight pin mask and level 0 gives 0;
    under Negative polarity a non-zero level gives 0 and level 0 gives
    the backlight pin mask.  The calls before the last one, repeated or
    alternating, do not matter. *)
Theorem setBacklight_status_by_last_level :
  forall (bus : Bus) (lcd : LiquidCrystal_IIC) (levels : list Z)
         (level : Z) (t : Trace),
    _backlightPinMask lcd <> 0 ->
    0 <= level <= 255 ->
    let lcd' := value_of (setBacklight_all bus (levels ++ [level]) lcd t) in
    _backlightStsMask lcd'
    = backlight_status (_polarity lcd) (_backlightPinMask lcd) level
    /\ (_polarity lcd = POSITIVE -> level <> 0 ->
        _backlightStsMask lcd' = _backlightPinMask lcd)
    /\ (_polarity lcd = NEGATIVE -> level <> 0 ->
        _backlightStsMask lcd' = 0)
    /\ (_polarity lcd = POSITIVE -> level = 0 ->
        _backlightStsMask lcd' = 0)
    /\ (_polarity lcd = NEGATIVE -> level = 0 ->
        _backlightStsMask lcd' = _backlightPinMask lcd).
Proof.
  intros bus lcd levels level t Hmask Hlevel lcd'.
  assert (Hsts : _backlightStsMask lcd'
                 = backlight_status (_polarity lcd) (_backlightPinMask lcd)
                     level).
  { subst lcd'. rewrite setBacklight_all_snoc.
    destruct (setBacklight_all_frame bus levels lcd t) as (Hm & Hp).
    set (lcd1 := value_of (setBacklight_all bus levels lcd t)) in *.
    rewrite setBacklight_run by (rewrite Hm; exact Hmask).
    unfold value_of; cbn [fst set_backlightStsMask _backlightStsMask].
    rewrite Hm, Hp. reflexivity. }
  split; [exact Hsts|].
  rewrite Hsts. unfold backlight_status.
  repeat split; intros Hpol Hl; rewrite Hpol.
  - destruct (Z.ltb_spec 0 level); [reflexivity | lia].
  - destruct (Z.eqb_spec level 0); [contradiction | reflexivity].
  - subst level. reflexivity.
  - subst level. reflexivity.
Qed.

Lemma setBacklight_status_by_last_level_witness :
  _backlightStsMask
    (value_of (setBacklight_all (one_device 39 0) ([1; 0; 0; 1] ++ [255])
                                (board_LCM1602 39) []))
  = 0.
Proof.
  destruct (setBacklight_status_by_last_level (one_device 39 0)
              (board_LCM1602 39) [1; 0; 0; 1] 255 [])
    as (_ & _ & H & _).
  - vm_compute; discriminate.
  - lia.
  - apply H; [reflexivity | discriminate].
Defined.

(** ** PinMapper: the byte rendered by [write4bits] *)

Lemma subset_bits_0 (m : Z) : subset_bits 0 m.
Proof. intros i _ H. rewrite Z.bits_0 in H. discriminate. Qed.

Lemma subset_bits_lor (a b m : Z) :
  subset_bits a m -> subset_bits b m -> subset_bits (Z.lor a b) m.
Proof.
  intros Ha Hb i Hi H. rewrite Z.lor_spec in H.
  apply orb_true_iff in H. destruct H; [apply Ha | apply Hb]; assumption.
Qed.

Lemma subset_bits_land_l (a b m : Z) :
  subset_bits a m -> subset_bits (Z.land a b) m.
Proof.
  intros Ha i Hi H. rewrite Z.land_spec in H.
  apply andb_true_iff in H. apply Ha; [assumption | apply H].
Qed.

Lemma subset_bits_lor_r (a b m : Z) :
  subset_bits a m -> subset_bits a (Z.lor b m).
Proof.
  intros Ha i Hi H. rewrite Z.lor_spec, (Ha i Hi H). apply orb_true_r.
Qed.

Lemma subset_bits_lor_l (a m : Z) : subset_bits a (Z.lor a m).
Proof. intros i Hi H. rewrite Z.lor_spec, H. reflexivity. Qed.

Lemma subset_bits_member (x : Z) (l : list Z) :
  In x l -> subset_bits x (fold_right Z.lor 0 l).
Proof.
  induction l as [|y l IH]; intros Hin; [contradiction|].
  cbn [fold_right]. destruct Hin as [-> | Hin].
  - apply subset_bits_lor_l.
  - apply subset_bits_lor_r, IH, Hin.
Qed.

Lemma subset_bits_nth (pins : list Z) (i : nat) (m : Z) :
  (forall x, In x pins -> subset_bits x m) ->
  subset_bits (nth i pins 0) m.
Proof.
  intros H. destruct (nth_in_or_default i pins 0) as [Hin | ->].
  - apply H, Hin.
  - apply subset_bits_0.
Qed.

Lemma map_data_pins_subset (pins : list Z) (m : Z) :
  (forall x, In x pins -> subset_bits x m) ->
  forall (n i : nat) (value acc : Z),
    subset_bits acc m ->
    subset_bits (map_data_pins pins n i value acc) m.
Proof.
  intros Hpins. induction n as [|n IH]; intros i value acc Hacc.
  - exact Hacc.
  - cbn [map_data_pins]. apply IH.
    destruct (Z.land value 1 =? 1); [|exact Hacc].
    apply subset_bits_lor; [exact Hacc | apply subset_bits_nth, Hpins].
Qed.

Lemma configured_member (lcd : LiquidCrystal_IIC) (x : Z) :
  In x ([_En lcd; _Rw lcd; _Rs lcd] ++ _data_pins lcd
          ++ [_backlightPinMask lcd]) ->
  subset_bits x (configured_bits lcd).
Proof. apply subset_bits_member. Qed.

Lemma configured_control (lcd : LiquidCrystal_IIC) :
  subset_bits (_En lcd) (configured_bits lcd)
  /\ subset_bits (_Rs lcd) (configured_bits lcd).
Proof.
  split; apply configured_member; cbn [app In]; auto.
Qed.

Lemma configured_data_pin (lcd : LiquidCrystal_IIC) (x : Z) :
  In x (_data_pins lcd) -> subset_bits x (configured_bits lcd).
Proof.
  intros Hx. apply configured_member. cbn [app]. do 3 right.
  apply in_or_app. left. exact Hx.
Qed.

Lemma configured_backlight (lcd : LiquidCrystal_IIC) :
  subset_bits (_backlightPinMask lcd) (configured_bits lcd).
Proof.
  apply configured_member. cbn [app]. do 3 right.
  apply in_or_app. right. left. reflexivity.
Qed.

(** C4.  Whatever the pin masks of the object (those that [config]
    makes of pairwise distinct positions in 0..7 among them), for every
    nibble value, for the modes [COMMAND] and [DATA], and for a
    backlight status mask that is 0 or the backlight pin mask, the byte
    that [write4bits] renders has no bit outside the union of the enable,
    rw, rs, data and backlight masks; neither have the two bytes it
    writes, with and without the enable bit. *)
Theorem write4bits_sets_only_configured_bits :
  forall (h : LCD_h) (lcd : LiquidCrystal_IIC) (value mode : Z) (t : Trace),
    COMMAND = 0 ->
    mode = COMMAND \/ mode = DATA ->
    _backlightStsMask lcd = 0
    \/ _backlightStsMask lcd = _backlightPinMask lcd ->
    let rendered := pinMapValue_of value mode lcd in
    let union :=
      Z.lor (_En lcd)
        (Z.lor (_Rw lcd)
           (Z.lor (_Rs lcd)
              (fold_right Z.lor 0
                 (_data_pins lcd ++ [_backlightPinMask lcd])))) in
    write4bits value mode lcd t
    = (tt, t ++ [Write (Z.lor rendered (_En lcd));
                 Write (Z.land rendered (Z.lnot (_En lcd)))])
    /\ subset_bits rendered union
    /\ subset_bits (Z.lor rendered (_En lcd)) union
    /\ subset_bits (Z.land rendered (Z.lnot (_En lcd))) union.
Proof.
  intros h lcd value mode t Hcmd Hmode Hsts rendered union.
  assert (Hunion : union = configured_bits lcd) by reflexivity.
  rewrite Hunion. clear Hunion union.
  assert (Hr : subset_bits rendered (configured_bits lcd)).
  { subst rendered. unfold pinMapValue_of.
    apply subset_bits_lor; [|apply subset_bits_lor].
    - apply map_data_pins_subset; [|apply subset_bits_0].
      apply configured_data_pin.
    - destruct (Z.eqb_spec mode DATA) as [_ | Hnd].
      + apply configured_control.
      + destruct Hmode as [-> | ->]; [|contradiction].
        rewrite Hcmd. apply subset_bits_0.
    - destruct Hsts as [-> | ->]; [apply subset_bits_0|].
      apply configured_backlight. }
  split; [apply write4bits_run|].
  split; [exact Hr|].
  split.
  - apply subset_bits_lor; [exact Hr | apply configured_control].
  - apply subset_bits_land_l. exact Hr.
Qed.

Lemma write4bits_sets_only_configured_bits_witness :
  subset_bits
    (pinMapValue_of (h := sample_LCD_h) 10 (@DATA sample_LCD_h)
                    (board_YWROBOT 39))
    (Z.lor 4 (Z.lor 2 (Z.lor 1
       (fold_right Z.lor 0 ([16; 32; 64; 128] ++ [8]))))).
Proof.
  apply (write4bits_sets_only_configured_bits sample_LCD_h
           (board_YWROBOT 39) 10 1 []).
  - reflexivity.
  - right; reflexivity.
  - left; reflexivity.
Defined.

Lemma lsb_test (x : Z) : (Z.land x 1 =? 1) = Z.testbit x 0.
Proof.
  change 1 with (Z.ones 1) at 1.
  rewrite Z.land_ones by lia. rewrite Z.pow_1_r, <- Z.bit0_mod.
  destruct (Z.testbit x 0); reflexivity.
Qed.

Lemma shifted_lsb_test (x n : Z) :
  0 <= n -> (Z.land (Z.shiftr x n) 1 =? 1) = Z.testbit x n.
Proof.
  intros Hn. rewrite lsb_test, Z.shiftr_spec by lia. reflexivity.
Qed.

(** The four rounds of the loop of [write4bits], bit by bit. *)
Lemma map_data_pins_four (pins : list Z) (value : Z) :
  map_data_pins pins 4 0 value 0
  = Z.lor (Z.lor (Z.lor (data_bit pins value 0) (data_bit pins value 1))
                 (data_bit pins value 2))
          (data_bit pins value 3).
Proof.
  assert (H0 := lsb_test value).
  assert (H1 : (Z.land (Z.shiftr value 1) 1 =? 1) = Z.testbit value 1)
    by (apply shifted_lsb_test; lia).
  assert (H2 : (Z.land (Z.shiftr (Z.shiftr value 1) 1) 1 =? 1)
               = Z.testbit value 2).
  { rewrite Z.shiftr_shiftr by lia. apply (shifted_lsb_test value 2). lia. }
  assert (H3 : (Z.land (Z.shiftr (Z.shiftr (Z.shiftr value 1) 1) 1) 1 =? 1)
               = Z.testbit value 3).
  { rewrite !Z.shiftr_shiftr by lia. apply (shifted_lsb_test value 3). lia. }
  cbn [map_data_pins]. rewrite H0, H1, H2, H3. unfold data_bit.
  change (Z.of_nat 0) with 0. change (Z.of_nat 1) with 1.
  change (Z.of_nat 2) with 2. change (Z.of_nat 3) with 3.
  destruct (Z.testbit value 0), (Z.testbit value 1),
           (Z.testbit value 2), (Z.testbit value 3);
    rewrite ?Z.lor_0_l, ?Z.lor_0_r; reflexivity.
Qed.

(** C5.  In the modes [COMMAND] and [DATA] the byte that [write4bits]
    renders is the [renderNibble] of the specification: the OR of the
    data-pin mask [i] for each set bit [i] of the nibble, of the
    register-select mask exactly when the mode is [DATA], and of the
    backlight status mask.  The nibble 0b1010 in data mode with status
    mask 0 renders as data pin 1 | data pin 3 | register select. *)
Theorem write4bits_renders_nibble :
  forall (h : LCD_h) (lcd : LiquidCrystal_IIC) (value mode : Z),
    COMMAND = 0 ->
    mode = COMMAND \/ mode = DATA ->
    pinMapValue_of value mode lcd
    = renderNibble lcd value (mode =? DATA) (_backlightStsMask lcd)
    /\ (_backlightStsMask lcd = 0 ->
        pinMapValue_of 10 DATA lcd
        = Z.lor (Z.lor (nth 1 (_data_pins lcd) 0) (nth 3 (_data_pins lcd) 0))
                (_Rs lcd)).
Proof.
  intros h lcd value mode Hcmd Hmode. split.
  - unfold pinMapValue_of, renderNibble.
    rewrite map_data_pins_four.
    destruct (Z.eqb_spec mode DATA) as [_ | Hnd].
    + rewrite Z.lor_assoc. reflexivity.
    + destruct Hmode as [-> | ->]; [|contradiction].
      rewrite Hcmd, Z.lor_assoc. reflexivity.
  - intros Hsts. unfold pinMapValue_of.
    rewrite map_data_pins_four, Z.eqb_refl, Hsts.
    unfold data_bit. cbn [Z.testbit Z.of_nat Pos.of_succ_nat Pos.succ
                            Pos.testbit Pos.pred_N].
    rewrite ?Z.lor_0_l, ?Z.lor_0_r. reflexivity.
Qed.

Lemma write4bits_renders_nibble_witness :
  pinMapValue_of (h := sample_LCD_h) 10 (@DATA sample_LCD_h)
                 (board_EXTRAIO 56)
  = Z.lor (Z.lor 2 8) 16.
Proof.
  apply (write4bits_renders_nibble sample_LCD_h (board_EXTRAIO 56) 10 1).
  - reflexivity.
  - right; reflexivity.
  - reflexivity.
Defined.

(** ** ExpanderRegisterIO: [I2CIO] *)

Section ExpanderFacts.
Variable bus : Bus.

Lemma I2CIO_write_run (cmd value : Z) (io : I2CIO) (t : Trace) :
  _initialised io = true ->
  let sent := Z.land value (Z.lnot (_dirMask io)) in
  let opened :=
    t ++ [BeginTransmission (_i2cAddr io)]
      ++ (if _chipType io =? 0 then [Write cmd] else []) ++ [Write sent] in
  I2CIO_write bus cmd value io t
  = ((Z.b2z (u8 (bus_endTransmission bus opened) =? 0), set_shadow sent io),
     opened ++ [EndTransmission]).
Proof.
  intros Hinit sent opened. subst sent opened.
  unfold I2CIO_write. rewrite Hinit.
  cbn [set_shadow _i2cAddr _chipType _shadow].
  destruct (_chipType io =? 0); run_wire; reflexivity.
Qed.

Lemma I2CIO_write_idle (cmd value : Z) (io : I2CIO) (t : Trace) :
  _initialised io = false ->
  I2CIO_write bus cmd value io t = ((1, io), t).
Proof.
  intros Hinit. unfold I2CIO_write. rewrite Hinit. reflexivity.
Qed.

End ExpanderFacts.

(** C9.  On an initialised [I2CIO], [write(cmd, value)] opens
    one transaction in which the last byte written is
    [value & ~_dirMask], the input-configured bits masked out; the
    shadow is that byte when the call returns, and the call returns 1
    when [endTransmission] reported 0 and returns 0 when it reported a
    failure: shadow and transmitted byte agree in both cases.
    [digitalWrite(pin, level)] with [pin <= 7] sets or clears the bit of
    the pin in the shadow if the pin is an output and does the same
    [write] with the result.  On an object that is not initialised, and
    in [digitalWrite] with a pin above 7, nothing is transmitted and the
    shadow is left as it was. *)
Theorem I2CIO_shadow_is_last_transmitted :
  forall (h : I2CIO_h) (bus : Bus) (io : I2CIO)
         (cmd value pin level : Z) (t : Trace),
    let preamble c := if _chipType io =? 0 then [Write c] else [] in
    let reported sent c :=
      u8 (bus_endTransmission bus
            (t ++ [BeginTransmission (_i2cAddr io)] ++ preamble c
               ++ [Write sent])) in
    (_initialised io = true ->
     let sent := Z.land value (Z.lnot (_dirMask io)) in
     let r := I2CIO_write bus cmd value io t in
     trace_of r
     = t ++ [BeginTransmission (_i2cAddr io)] ++ preamble cmd
         ++ [Write sent; EndTransmission]
     /\ _shadow (snd (value_of r)) = sent
     /\ _dirMask (snd (value_of r)) = _dirMask io
     /\ (reported sent cmd = 0 -> fst (value_of r) = 1)
     /\ (reported sent cmd <> 0 ->
         fst (value_of r) = 0 /\ _shadow (snd (value_of r)) = sent))
    /\ (_initialised io = true ->
        pin <= 7 ->
        let writeVal := Z.land (Z.shiftl 1 pin) (Z.lnot (_dirMask io)) in
        let target :=
          if level =? HIGH
          then Z.lor (_shadow io) writeVal
          else Z.land (_shadow io) (Z.lnot writeVal) in
        let sent := Z.land target (Z.lnot (_dirMask io)) in
        let r := I2CIO_digitalWrite bus pin level io t in
        trace_of r
        = t ++ [BeginTransmission (_i2cAddr io)] ++ preamble MCP23008_GPIO
            ++ [Write sent; EndTransmission]
        /\ _shadow (snd (value_of r)) = sent
        /\ _dirMask (snd (value_of r)) = _dirMask io
        /\ (reported sent MCP23008_GPIO = 0 -> fst (value_of r) = 1)
        /\ (reported sent MCP23008_GPIO <> 0 ->
            fst (value_of r) = 0 /\ _shadow (snd (value_of r)) = sent))
    /\ (_initialised io = false \/ 7 < pin ->
        (_initialised io = false ->
         trace_of (I2CIO_write bus cmd value io t) = t
         /\ snd (value_of (I2CIO_write bus cmd value io t)) = io)
        /\ I2CIO_digitalWrite bus pin level io t = ((0, io), t)).
Proof.
  intros h bus io cmd value pin level t preamble reported.
  split; [|split].
  - intros Hinit sent r. subst r.
    rewrite I2CIO_write_run by exact Hinit. fold sent.
    unfold trace_of, value_of; cbn [fst snd set_shadow _shadow _dirMask].
    subst reported preamble. cbv beta. flatten_trace.
    split; [reflexivity|]. split; [reflexivity|]. split; [reflexivity|].
    split.
    + intros ->. reflexivity.
    + intros Hfail. split; [|reflexivity].
      destruct (Z.eqb_spec
                  (u8 (bus_endTransmission bus
                         (t ++ BeginTransmission (_i2cAddr io)
                            :: (if _chipType io =? 0 then [Write cmd] else [])
                            ++ [Write sent]))) 0);
        [contradiction | reflexivity].
  - intros Hinit Hpin writeVal target sent r. subst r.
    unfold I2CIO_digitalWrite. rewrite Hinit.
    destruct (Z.leb_spec pin 7) as [_ | Hgt]; [|lia].
    cbn [andb]. fold writeVal.
    assert (Hio : (if level =? HIGH
                   then set_shadow (Z.lor (_shadow io) writeVal) io
                   else set_shadow (Z.land (_shadow io) (Z.lnot writeVal)) io)
                  = set_shadow target io)
      by (subst target; destruct (level =? HIGH); reflexivity).
    rewrite Hio.
    rewrite I2CIO_write_run by exact Hinit.
    cbn [set_shadow _shadow _dirMask _i2cAddr _chipType]. fold sent.
    unfold trace_of, value_of; cbn [fst snd set_shadow _shadow _dirMask].
    subst reported preamble. cbv beta. flatten_trace.
    split; [reflexivity|]. split; [reflexivity|]. split; [reflexivity|].
    split.
    + intros ->. reflexivity.
    + intros Hfail. split; [|reflexivity].
      destruct (Z.eqb_spec
                  (u8 (bus_endTransmission bus
                         (t ++ BeginTransmission (_i2cAddr io)
                            :: (if _chipType io =? 0
                                then [Write MCP23008_GPIO] else [])
                            ++ [Write sent]))) 0);
        [contradiction | reflexivity].
  - intros Hidle. split.
    + intros Hinit. rewrite I2CIO_write_idle by exact Hinit.
      split; reflexivity.
    + unfold I2CIO_digitalWrite.
      destruct Hidle as [-> | Hpin]; [reflexivity|].
      destruct (Z.leb_spec pin 7); [lia|].
      rewrite andb_false_r. reflexivity.
Qed.

Lemma I2CIO_shadow_is_last_transmitted_witness :
  trace_of (I2CIO_write (one_device 39 0) 9 255 (mkI2CIO 39 15 0 true 1) [])
  = [BeginTransmission 39; Write 240; EndTransmission]
  /\ _shadow (snd (value_of
       (I2CIO_digitalWrite (h := sample_I2CIO_h) (one_device 39 0) 6 1
                           (mkI2CIO 39 15 0 true 1) []))) = 64.
Proof.
  destruct (I2CIO_shadow_is_last_transmitted sample_I2CIO_h (one_device 39 0)
              (mkI2CIO 39 15 0 true 1) 9 255 6 1 []) as (Hw & Hd & _).
  split.
  - destruct (Hw eq_refl) as (Htrace & _). exact Htrace.
  - destruct (Hd eq_refl) as (_ & Hshadow & _); [lia | exact Hshadow].
Defined.

(** C9, an object that is not initialised.  After a [begin] that no
    device answered, the shadow holds 0xFF, the byte made of the failed
    read; [write(9, 0x55)] then transmits nothing, leaves the shadow at
    0xFF where [value & ~_dirMask] is 0, and returns 1 although no
    transaction took place. *)
Lemma I2CIO_write_uninitialised_transmits_nothing :
  let io :=
    snd (value_of (I2CIO_begin (h := sample_I2CIO_h) empty_bus 39 1
                               (I2CIO_new 1) [])) in
  _initialised io = false
  /\ _shadow io = 255
  /\ Z.land 85 (Z.lnot (_dirMask io)) = 0
  /\ I2CIO_write empty_bus 9 85 io [] = ((1, io), []).
Proof.
  vm_compute. repeat split; reflexivity.
Qed.

(** ** Runs on concrete buses *)

Example IdentifyIOexp_0xFF :
  value_of (IdentifyIOexp (one_device 32 255) 32 []) = IIC_MCP23008.
Proof. reflexivity. Qed.

Example IdentifyIOexp_0x00 :
  value_of (IdentifyIOexp (one_device 39 0) 39 []) = IIC_PCF8574.
Proof. reflexivity. Qed.

Example IdentifyIOexp_other_bytes :
  map (fun b => value_of (IdentifyIOexp (one_device 39 b) 39 []))
      [1; 127; 128]
  = [IIC_UNKNOWN; IIC_UNKNOWN; IIC_UNKNOWN].
Proof. reflexivity. Qed.

(** A read that received nothing hands back -1, the byte 0xFF. *)
Example IdentifyIOexp_no_answer :
  value_of (IdentifyIOexp empty_bus 39 []) = IIC_MCP23008.
Proof. reflexivity. Qed.

Example LocateDevice_single_device :
  map (fun k => value_of (LocateDevice (one_device k 0) [])) [0; 1; 64; 127]
  = [0; 1; 64; 127].
Proof. vm_compute. reflexivity. Qed.

Example LocateDevice_no_device :
  value_of (LocateDevice empty_bus []) = IIC_ADDR_UNKNOWN
  /\ length (trace_of (LocateDevice empty_bus [])) = 256%nat.
Proof. vm_compute. split; reflexivity. Qed.

Example LocateDevice_passes_over_unidentified :
  value_of
    (LocateDevice (simple_bus (fun a => (a =? 10) || (a =? 15))
                              (fun a => if a =? 10 then 128 else 255)) [])
  = 15.
Proof. vm_compute. reflexivity. Qed.

Example init_EXTRAIO_at_0x38 :
  init (h := sample_LCD_h) (one_device 56 0) (board_EXTRAIO 56) []
  = ((0, board_EXTRAIO 56),
     [Begin; BeginAs 56; BeginTransmission 56; Write 0; EndTransmission]).
Proof. vm_compute. reflexivity. Qed.

Example send_function_set_EXTRAIO :
  trace_of (send (h := sample_LCD_h) (one_device 56 0) 40
                 (@COMMAND sample_LCD_h) (board_EXTRAIO 56) [])
  = [BeginTransmission 56; Write 66; Write 2; Write 72; Write 8;
     EndTransmission].
Proof. vm_compute. reflexivity. Qed.

Example init_ADAFRUIT_at_0x20 :
  trace_of (init (h := sample_LCD_h) (one_device 32 255)
                 (board_ADAFRUIT 32) [])
  = [Begin; BeginAs 32;
     BeginTransmission 32; Write 5; Write 32; EndTransmission;
     BeginTransmission 32; Write 0; Write 0; EndTransmission;
     BeginTransmission 32; Write 10; Write 0; EndTransmission].
Proof. vm_compute. reflexivity. Qed.

(** ** Bits of the pin masks *)

Lemma pin_mask_bit (p q : Z) :
  0 <= p -> 0 <= q ->
  Z.testbit (u8 (Z.shiftl 1 p)) q = (p =? q) && (q <? 8).
Proof.
  intros Hp Hq. unfold u8. change 256 with (2 ^ 8).
  rewrite Z.shiftl_1_l.
  destruct (Z.ltb_spec q 8).
  - rewrite Z.mod_pow2_bits_low by lia.
    rewrite Z.pow2_bits_eqb by lia. rewrite andb_true_r. reflexivity.
  - rewrite Z.mod_pow2_bits_high by lia. rewrite andb_false_r. reflexivity.
Qed.

Lemma pin_mask_beyond_port (p : Z) : 8 <= p -> u8 (Z.shiftl 1 p) = 0.
Proof.
  intros Hp. apply Z.bits_inj'. intros q Hq.
  rewrite pin_mask_bit by lia. rewrite Z.bits_0.
  destruct (Z.eqb_spec p q); [|reflexivity].
  destruct (Z.ltb_spec q 8); [lia | reflexivity].
Qed.

Lemma pin_mask_on_port (p : Z) : 0 <= p <= 7 -> u8 (Z.shiftl 1 p) = 2 ^ p.
Proof.
  intros Hp. unfold u8. rewrite Z.shiftl_1_l.
  apply Z.mod_small. split; [apply Z.pow_nonneg; lia|].
  change 256 with (2 ^ 8). apply Z.pow_lt_mono_r; lia.
Qed.

Section WiringFacts.
Context {h : LCD_h}.

(** The bit at position [q] of the byte that [write4bits] renders. *)
Lemma rendered_bit (lcd : LiquidCrystal_IIC)
  (En Rw Rs d4 d5 d6 d7 bl value mode q : Z) :
  wired lcd En Rw Rs d4 d5 d6 d7 bl ->
  0 <= Rs -> 0 <= d4 -> 0 <= d5 -> 0 <= d6 -> 0 <= d7 -> 0 <= q ->
  COMMAND = 0 ->
  mode = COMMAND \/ mode = DATA ->
  Z.testbit (pinMapValue_of value mode lcd) q
  = (Z.testbit value 0 && ((d4 =? q) && (q <? 8)))
    || (Z.testbit value 1 && ((d5 =? q) && (q <? 8)))
    || (Z.testbit value 2 && ((d6 =? q) && (q <? 8)))
    || (Z.testbit value 3 && ((d7 =? q) && (q <? 8)))
    || ((mode =? DATA) && ((Rs =? q) && (q <? 8)))
    || Z.testbit (_backlightStsMask lcd) q.
Proof.
  intros (_ & _ & HRs & Hdata & _ & _) ? ? ? ? ? Hq Hcmd Hmode.
  unfold pinMapValue_of. rewrite map_data_pins_four, Hdata, HRs.
  unfold data_bit. cbn [nth].
  change (Z.of_nat 0) with 0. change (Z.of_nat 1) with 1.
  change (Z.of_nat 2) with 2. change (Z.of_nat 3) with 3.
  rewrite !Z.lor_spec.
  assert (Hbit : forall (b : bool) p, 0 <= p ->
            Z.testbit (if b then u8 (Z.shiftl 1 p) else 0) q
            = b && ((p =? q) && (q <? 8))).
  { intros [|] p Hp; [apply pin_mask_bit; lia | apply Z.bits_0]. }
  rewrite !Hbit by assumption.
  replace (Z.testbit (if mode =? DATA then u8 (Z.shiftl 1 Rs) else mode) q)
    with ((mode =? DATA) && ((Rs =? q) && (q <? 8))).
  - rewrite !orb_assoc. reflexivity.
  - destruct (Z.eqb_spec mode DATA) as [_ | Hnd].
    + symmetry. apply pin_mask_bit; lia.
    + destruct Hmode as [-> | ->]; [|contradiction].
      rewrite Hcmd, Z.bits_0. reflexivity.
Qed.

End WiringFacts.

(** X1.  On an object wired by the constructors to seven distinct pins
    of the port (and a backlight pin that is none of them), the two
    bytes that [write4bits] writes put the nibble on the LCD lines: the
    enable pin is high in the first byte and low in the second, and in
    both bytes the R/W pin is low, the RS pin is high exactly in [DATA]
    mode, data pin [i] carries bit [i] of the value, and the backlight
    pin carries the status mask. *)
Theorem write4bits_drives_wired_lines :
  forall (h : LCD_h) (lcd : LiquidCrystal_IIC)
         (En Rw Rs d4 d5 d6 d7 bl value mode : Z) (t : Trace),
    wired lcd En Rw Rs d4 d5 d6 d7 bl ->
    port_pins [En; Rw; Rs; d4; d5; d6; d7] ->
    0 <= bl ->
    ~ In bl [En; Rw; Rs; d4; d5; d6; d7] ->
    COMMAND = 0 ->
    mode = COMMAND \/ mode = DATA ->
    exists high low,
      write4bits value mode lcd t = (tt, t ++ [Write high; Write low])
      /\ Z.testbit high En = true
      /\ Z.testbit low En = false
      /\ forall b, b = high \/ b = low ->
           Z.testbit b Rw = false
           /\ Z.testbit b Rs = (mode =? DATA)
           /\ Z.testbit b d4 = Z.testbit value 0
           /\ Z.testbit b d5 = Z.testbit value 1
           /\ Z.testbit b d6 = Z.testbit value 2
           /\ Z.testbit b d7 = Z.testbit value 3
           /\ Z.testbit b bl = Z.testbit (_backlightStsMask lcd) bl.
Proof.
  intros h lcd En Rw Rs d4 d5 d6 d7 bl value mode t Hw Hpins Hbl Hnin
         Hcmd Hmode.
  split_pins.
  assert (Hr : forall q, 0 <= q ->
            Z.testbit (pinMapValue_of value mode lcd) q = _)
    by (intros q Hq; apply (rendered_bit lcd En Rw Rs d4 d5 d6 d7 bl);
        assumption || bounds_lia).
  destruct Hw as (HEn & _ & _ & _ & Hmask & Hsts).
  assert (Hoff : forall q, 0 <= q -> q <> bl ->
            Z.testbit (_backlightStsMask lcd) q = false).
  { intros q Hq Hne. destruct Hsts as [Hz | Hm].
    - rewrite Hz. apply Z.bits_0.
    - rewrite Hm, Hmask, pin_mask_bit by assumption.
      destruct (Z.eqb_spec bl q); [congruence | reflexivity]. }
  eexists. eexists. split; [apply write4bits_run|].
  rewrite HEn.
  split; [|split].
  - rewrite Z.lor_spec, pin_mask_bit by bounds_lia.
    decide_pins; try apply orb_true_r.
  - rewrite Z.land_spec, Z.lnot_spec, pin_mask_bit by bounds_lia.
    decide_pins; try apply andb_false_r.
  - intros b [-> | ->].
    + rewrite !Z.lor_spec, !pin_mask_bit, !Hr by bounds_lia.
      rewrite !(Hoff Rw), !(Hoff Rs), !(Hoff d4), !(Hoff d5),
              !(Hoff d6), !(Hoff d7) by (congruence || bounds_lia).
      decide_pins;
        rewrite ?andb_true_r, ?andb_false_r, ?orb_false_r, ?orb_false_l;
        repeat split; try reflexivity.
    + rewrite !Z.land_spec, !Z.lnot_spec, !pin_mask_bit, !Hr by bounds_lia.
      rewrite !(Hoff Rw), !(Hoff Rs), !(Hoff d4), !(Hoff d5),
              !(Hoff d6), !(Hoff d7) by (congruence || bounds_lia).
      decide_pins;
        rewrite ?andb_true_r, ?andb_false_r, ?orb_false_r, ?orb_false_l;
        repeat split; try reflexivity.
Qed.

Lemma write4bits_drives_wired_lines_witness :
  exists high low,
    write4bits (h := sample_LCD_h) 10 (@DATA sample_LCD_h)
               (board_YWROBOT 39) [] = (tt, [] ++ [Write high; Write low])
    /\ Z.testbit high 2 = true
    /\ Z.testbit low 2 = false
    /\ forall b, b = high \/ b = low ->
         Z.testbit b 1 = false
         /\ Z.testbit b 0 = (@DATA sample_LCD_h =? @DATA sample_LCD_h)
         /\ Z.testbit b 4 = Z.testbit 10 0
         /\ Z.testbit b 5 = Z.testbit 10 1
         /\ Z.testbit b 6 = Z.testbit 10 2
         /\ Z.testbit b 7 = Z.testbit 10 3
         /\ Z.testbit b 3
            = Z.testbit (_backlightStsMask (board_YWROBOT 39)) 3.
Proof.
  apply (write4bits_drives_wired_lines sample_LCD_h (board_YWROBOT 39)
           2 1 0 4 5 6 7 3 10 1 []).
  - unfold wired. cbn. repeat split; auto.
  - split.
    + repeat (constructor; [cbn [In]; intuition discriminate|]).
      constructor.
    + repeat constructor; lia.
  - lia.
  - cbn [In]. intuition discriminate.
  - reflexivity.
  - right; reflexivity.
Defined.

(** ** A port without a backlight pin *)

Lemma setBacklight_all_no_pin (bus : Bus) (levels : list Z) :
  forall (lcd : LiquidCrystal_IIC) (t : Trace),
    _backlightPinMask lcd = 0 ->
    setBacklight_all bus levels lcd t = (lcd, t).
Proof.
  induction levels as [|level levels IH]; intros lcd t Hmask.
  - reflexivity.
  - cbn [setBacklight_all]. rewrite bind_run.
    unfold setBacklight at 1 2. rewrite Hmask. cbn [Z.eqb negb ret fst snd].
    apply IH. exact Hmask.
Qed.

(** X2.  An object constructed without a backlight pin, or with a
    backlight pin number from 8 to 14 (whose mask [1 << pin] does not
    fit the byte and is stored as 0), has no backlight control: any run
    of [setBacklight] calls makes no call on the bus and leaves the
    object as it was. *)
Theorem setBacklight_needs_port_pin :
  forall (bus : Bus) (addr : Z) (ty : iicChipType)
         (En Rw Rs d4 d5 d6 d7 bl : Z) (pol : t_backlighPol)
         (levels : list Z) (t : Trace),
    8 <= bl <= 14 ->
    let plain := config addr ty En Rw Rs d4 d5 d6 d7 in
    let beyond :=
      LiquidCrystal_IIC_bl addr ty En Rw Rs d4 d5 d6 d7 bl pol in
    setBacklight_all bus levels plain t = (plain, t)
    /\ setBacklight_all bus levels beyond t = (beyond, t).
Proof.
  intros bus addr ty En Rw Rs d4 d5 d6 d7 bl pol levels t Hbl plain beyond.
  split; apply setBacklight_all_no_pin.
  - reflexivity.
  - subst beyond. unfold LiquidCrystal_IIC_bl, setBacklightPin.
    cbn [set_backlightPin _backlightPinMask].
    apply pin_mask_beyond_port. lia.
Qed.

Lemma setBacklight_needs_port_pin_witness :
  setBacklight_all (one_device 39 0) [1; 0; 255]
    (LiquidCrystal_IIC_bl 39 IIC_PCF8574 2 1 0 4 5 6 7 8 POSITIVE) [Begin]
  = (LiquidCrystal_IIC_bl 39 IIC_PCF8574 2 1 0 4 5 6 7 8 POSITIVE, [Begin]).
Proof.
  apply (setBacklight_needs_port_pin (one_device 39 0) 39 IIC_PCF8574
           2 1 0 4 5 6 7 8 POSITIVE [1; 0; 255] [Begin]).
  lia.
Defined.

(** ** Bytes on the wire *)

Lemma is_byte_spec (x : Z) : is_byte x = true <-> 0 <= x < 256.
Proof.
  unfold is_byte. rewrite andb_true_iff, Z.leb_le, Z.ltb_lt. reflexivity.
Qed.

Lemma is_byte_mask (x : Z) : is_byte x = true <-> Z.land x 255 = x.
Proof.
  rewrite is_byte_spec. change 255 with (Z.ones 8).
  rewrite Z.land_ones by lia. change (2 ^ 8) with 256. split.
  - intros H. apply Z.mod_small. exact H.
  - intros H. rewrite <- H. apply Z.mod_pos_bound. lia.
Qed.

Lemma is_byte_u8 (x : Z) : is_byte (u8 x) = true.
Proof. apply is_byte_spec. unfold u8. apply Z.mod_pos_bound. lia. Qed.

Lemma is_byte_lor (a b : Z) :
  is_byte a = true -> is_byte b = true -> is_byte (Z.lor a b) = true.
Proof.
  rewrite !is_byte_mask. intros Ha Hb.
  rewrite Z.land_lor_distr_l, Ha, Hb. reflexivity.
Qed.

Lemma is_byte_land_l (a b : Z) :
  is_byte a = true -> is_byte (Z.land a b) = true.
Proof.
  rewrite !is_byte_mask. intros Ha.
  rewrite <- Z.land_assoc, (Z.land_comm b 255), Z.land_assoc, Ha.
  reflexivity.
Qed.

Lemma is_byte_nth (pins : list Z) (i : nat) :
  forallb is_byte pins = true -> is_byte (nth i pins 0) = true.
Proof.
  intros H. destruct (nth_in_or_default i pins 0) as [Hin | ->].
  - rewrite forallb_forall in H. apply H, Hin.
  - reflexivity.
Qed.

Lemma map_data_pins_byte (pins : list Z) :
  forallb is_byte pins = true ->
  forall (n i : nat) (value acc : Z),
    is_byte acc = true ->
    is_byte (map_data_pins pins n i value acc) = true.
Proof.
  intros Hpins. induction n as [|n IH]; intros i value acc Hacc.
  - exact Hacc.
  - cbn [map_data_pins]. apply IH.
    destruct (Z.land value 1 =? 1); [|exact Hacc].
    apply is_byte_lor; [exact Hacc | apply is_byte_nth, Hpins].
Qed.

Lemma writes_bytes_app (t l : Trace) :
  writes_bytes (t ++ l) = writes_bytes t && writes_bytes l.
Proof. apply forallb_app. Qed.

Lemma byte_fields_spec (lcd : LiquidCrystal_IIC) :
  byte_fields lcd = true ->
  is_byte (_backlightPinMask lcd) = true
  /\ is_byte (_backlightStsMask lcd) = true
  /\ is_byte (_En lcd) = true
  /\ is_byte (_Rs lcd) = true
  /\ forallb is_byte (_data_pins lcd) = true.
Proof.
  unfold byte_fields. rewrite !andb_true_iff. tauto.
Qed.

Section ByteFacts.
Context {h : LCD_h}.

Lemma pinMapValue_of_byte (value mode : Z) (lcd : LiquidCrystal_IIC) :
  byte_fields lcd = true ->
  is_byte mode = true ->
  is_byte (pinMapValue_of value mode lcd) = true.
Proof.
  intros Hlcd Hmode.
  destruct (byte_fields_spec lcd Hlcd) as (_ & Hsts & _ & HRs & Hpins).
  unfold pinMapValue_of.
  apply is_byte_lor; [|apply is_byte_lor].
  - apply map_data_pins_byte; [exact Hpins | reflexivity].
  - destruct (mode =? DATA); assumption.
  - exact Hsts.
Qed.

Lemma enable_pulse_bytes (p : Z) (lcd : LiquidCrystal_IIC) :
  byte_fields lcd = true ->
  is_byte p = true ->
  writes_bytes (enable_pulse p lcd) = true.
Proof.
  intros Hlcd Hp.
  destruct (byte_fields_spec lcd Hlcd) as (_ & _ & HEn & _ & _).
  unfold enable_pulse. cbn [writes_bytes forallb].
  rewrite is_byte_lor, is_byte_land_l by assumption. reflexivity.
Qed.

Lemma OLAT_pointer_bytes (lcd : LiquidCrystal_IIC) :
  writes_bytes (OLAT_pointer lcd) = true.
Proof. unfold OLAT_pointer. destruct (_iicType lcd); reflexivity. Qed.

(** What [send] emits is fixed by its arguments and the object. *)
Lemma send_emits (value mode : Z) (lcd : LiquidCrystal_IIC) :
  exists emitted,
    (forall (bus : Bus) (t : Trace),
        send bus value mode lcd t = (lcd, t ++ emitted))
    /\ (byte_fields lcd = true -> is_byte COMMAND = true ->
        is_byte mode = true -> writes_bytes emitted = true).
Proof.
  destruct (Z.eq_dec (_Addr lcd) IIC_ADDR_UNKNOWN) as [Hu | Ha].
  { exists []. split; [|reflexivity].
    intros bus t. rewrite app_nil_r. apply send_unresolved. exact Hu. }
  destruct (Z.eq_dec mode FOUR_BITS) as [-> | Hfour].
  { eexists. split.
    - intros bus t. apply send_FOUR_BITS. exact Ha.
    - intros Hlcd Hcmd _. cbn [app writes_bytes forallb].
      fold (writes_bytes
              (OLAT_pointer lcd
                 ++ enable_pulse
                      (pinMapValue_of (Z.land value 15) COMMAND lcd) lcd
                 ++ [EndTransmission])).
      rewrite !writes_bytes_app, OLAT_pointer_bytes, enable_pulse_bytes;
        [reflexivity | exact Hlcd |].
      apply pinMapValue_of_byte; assumption. }
  destruct (Z.eq_dec mode DATA) as [Hd | Hnd].
  - destruct (Z.eq_dec value 13) as [H13 | H13];
      [|destruct (Z.eq_dec value 10) as [H10 | H10]].
    + exists []. split; [|reflexivity]. intros bus t.
      rewrite app_nil_r, Hd. apply send_tossed; [congruence | auto].
    + exists []. split; [|reflexivity]. intros bus t.
      rewrite app_nil_r, Hd. apply send_tossed; [congruence | auto].
    + eexists. split.
      * intros bus t. apply send_full_byte; try assumption.
        intros [_ [? | ?]]; contradiction.
      * intros Hlcd _ Hmode. cbn [app writes_bytes forallb].
        fold (writes_bytes
                (OLAT_pointer lcd
                   ++ enable_pulse
                        (pinMapValue_of (Z.shiftr value 4) mode lcd) lcd
                   ++ enable_pulse
                        (pinMapValue_of (Z.land value 15) mode lcd) lcd
                   ++ [EndTransmission])).
        rewrite !writes_bytes_app, OLAT_pointer_bytes,
          !enable_pulse_bytes;
          try reflexivity; try exact Hlcd;
          apply pinMapValue_of_byte; assumption.
  - eexists. split.
    + intros bus t. apply send_full_byte; try assumption.
      intros [? _]; contradiction.
    + intros Hlcd _ Hmode. cbn [app writes_bytes forallb].
      fold (writes_bytes
              (OLAT_pointer lcd
                 ++ enable_pulse
                      (pinMapValue_of (Z.shiftr value 4) mode lcd) lcd
                 ++ enable_pulse
                      (pinMapValue_of (Z.land value 15) mode lcd) lcd
                 ++ [EndTransmission])).
      rewrite !writes_bytes_app, OLAT_pointer_bytes,
        !enable_pulse_bytes;
        try reflexivity; try exact Hlcd;
        apply pinMapValue_of_byte; assumption.
Qed.

Lemma send_all_emits (calls : list (Z * Z)) (lcd : LiquidCrystal_IIC) :
  exists emitted,
    (forall (bus : Bus) (t : Trace),
        send_all bus calls lcd t = (lcd, t ++ emitted))
    /\ (byte_fields lcd = true -> is_byte COMMAND = true ->
        forallb (fun c => is_byte (snd c)) calls = true ->
        writes_bytes emitted = true).
Proof.
  induction calls as [|[value mode] calls (rest & Hrest & Hbytes)].
  - exists []. split; [|reflexivity].
    intros bus t. rewrite app_nil_r. reflexivity.
  - destruct (send_emits value mode lcd) as (first & Hfirst & Hfb).
    exists (first ++ rest). split.
    + intros bus t. cbn [send_all]. rewrite bind_run, Hfirst.
      cbn [fst snd]. rewrite Hrest, app_assoc. reflexivity.
    + intros Hlcd Hcmd Hmodes. cbn [forallb snd] in Hmodes.
      apply andb_true_iff in Hmodes. destruct Hmodes as (Hm & Hms).
      rewrite writes_bytes_app, Hfb, Hbytes by assumption. reflexivity.
Qed.

End ByteFacts.

Lemma set_backlightStsMask_bytes (sts : Z) (lcd : LiquidCrystal_IIC) :
  byte_fields lcd = true -> is_byte sts = true ->
  byte_fields (set_backlightStsMask sts lcd) = true.
Proof.
  intros Hlcd Hsts.
  destruct (byte_fields_spec lcd Hlcd) as (Hm & _ & HEn & HRs & Hpins).
  unfold byte_fields. cbn [set_backlightStsMask _backlightPinMask
    _backlightStsMask _En _Rs _data_pins].
  rewrite Hm, Hsts, HEn, HRs, Hpins. reflexivity.
Qed.

(** What [setBacklight] emits and the object it leaves are fixed by its
    argument and the object. *)
Lemma setBacklight_emits (level : Z) (lcd : LiquidCrystal_IIC) :
  exists lcd' emitted,
    (forall (bus : Bus) (t : Trace),
        setBacklight bus level lcd t = (lcd', t ++ emitted))
    /\ (byte_fields lcd = true ->
        byte_fields lcd' = true /\ writes_bytes emitted = true).
Proof.
  destruct (Z.eq_dec (_backlightPinMask lcd) 0) as [H0 | Hn].
  - exists lcd, []. split; [|auto].
    intros bus t. unfold setBacklight. rewrite H0, app_nil_r. reflexivity.
  - eexists. eexists. split.
    + intros bus t. rewrite setBacklight_run by exact Hn. reflexivity.
    + intros Hlcd.
      destruct (byte_fields_spec lcd Hlcd) as (Hm & _).
      assert (Hsts : is_byte (backlight_status (_polarity lcd)
                                (_backlightPinMask lcd) level) = true).
      { unfold backlight_status.
        destruct (_polarity lcd); [destruct (0 <? level)
                                  | destruct (level =? 0)];
          assumption || reflexivity. }
      split; [apply set_backlightStsMask_bytes; assumption|].
      cbn [app writes_bytes forallb].
      fold (writes_bytes
              (OLAT_pointer lcd
                 ++ [Write (backlight_status (_polarity lcd)
                              (_backlightPinMask lcd) level);
                     EndTransmission])).
      rewrite writes_bytes_app, OLAT_pointer_bytes.
      cbn [writes_bytes forallb]. rewrite Hsts. reflexivity.
Qed.

Lemma setBacklight_all_emits (levels : list Z) :
  forall lcd : LiquidCrystal_IIC,
  exists lcd' emitted,
    (forall (bus : Bus) (t : Trace),
        setBacklight_all bus levels lcd t = (lcd', t ++ emitted))
    /\ (byte_fields lcd = true ->
        byte_fields lcd' = true /\ writes_bytes emitted = true).
Proof.
  induction levels as [|level levels IH]; intros lcd.
  - exists lcd, []. split; [|auto].
    intros bus t. rewrite app_nil_r. reflexivity.
  - destruct (setBacklight_emits level lcd) as (lcd1 & first & Hfirst & Hfb).
    destruct (IH lcd1) as (lcd' & rest & Hrest & Hrb).
    exists lcd', (first ++ rest). split.
    + intros bus t. cbn [setBacklight_all]. rewrite bind_run, Hfirst.
      cbn [fst snd]. rewrite Hrest, app_assoc. reflexivity.
    + intros Hlcd. destruct (Hfb Hlcd) as (H1 & H2).
      destruct (Hrb H1) as (H3 & H4).
      rewrite writes_bytes_app, H2, H4. auto.
Qed.

(** X3.  [send] and [setBacklight] do not look at what the bus answers:
    the calls that a run of [send]s, or a run of [setBacklight]s, adds
    to the trace, and the object it leaves, are the same on every bus
    and after every earlier trace; a failed transfer goes unnoticed.  A
    run of [send]s leaves the object exactly as it was. *)
Theorem send_and_setBacklight_ignore_the_bus :
  forall (h : LCD_h) (lcd : LiquidCrystal_IIC),
    (forall calls : list (Z * Z),
        exists emitted,
          forall (bus : Bus) (t : Trace),
            send_all bus calls lcd t = (lcd, t ++ emitted))
    /\ (forall levels : list Z,
           exists lcd' emitted,
             forall (bus : Bus) (t : Trace),
               setBacklight_all bus levels lcd t = (lcd', t ++ emitted)).
Proof.
  intros h lcd. split.
  - intros calls. destruct (send_all_emits calls lcd) as (e & He & _).
    exists e. exact He.
  - intros levels.
    destruct (setBacklight_all_emits levels lcd) as (lcd' & e & He & _).
    exists lcd', e. exact He.
Qed.

(** ** [LocateDevice] on any bus *)

Section LocateFacts.
Variable bus : Bus.

Lemma LocateDevice_scan_cons (a : Z) (rest : list Z) (t : Trace) :
  LocateDevice_scan bus (a :: rest) t =
  if u8 (bus_endTransmission bus (t ++ [BeginTransmission a])) =? 0
  then
    if iicChipType_eqb
         (fst (IdentifyIOexp bus a
                 (t ++ [BeginTransmission a; EndTransmission])))
         IIC_UNKNOWN
    then LocateDevice_scan bus rest
           (t ++ [BeginTransmission a; EndTransmission] ++ probe_calls a)
    else (a, t ++ [BeginTransmission a; EndTransmission] ++ probe_calls a)
  else LocateDevice_scan bus rest
         (t ++ [BeginTransmission a; EndTransmission]).
Proof.
  cbn [LocateDevice_scan].
  rewrite bind_run. unfold Wire.beginTransmission, emit. cbn [fst snd].
  rewrite bind_run. unfold Wire.endTransmission. cbn [fst snd].
  rewrite <- app_assoc. cbn [app].
  destruct (u8 (bus_endTransmission bus (t ++ [BeginTransmission a])) =? 0);
    [|reflexivity].
  rewrite bind_run. rewrite (IdentifyIOexp_run bus a) at 2.
  cbn [snd]. rewrite <- app_assoc. cbn [app].
  destruct (iicChipType_eqb _ IIC_UNKNOWN); reflexivity.
Qed.

(** The scan returns the sentinel, or an address of its list that
    acknowledged and was then identified, right at the end of the
    trace. *)
Lemma LocateDevice_scan_outcome (l : list Z) :
  forall t : Trace,
    let r := LocateDevice_scan bus l t in
    (exists calls,
        snd r = t ++ calls /\ writes_bytes calls = true)
    /\ (fst r = IIC_ADDR_UNKNOWN
        \/ (In (fst r) l
            /\ exists before,
                snd r = before
                          ++ [BeginTransmission (fst r); EndTransmission]
                          ++ probe_calls (fst r)
                /\ u8 (bus_endTransmission bus
                         (before ++ [BeginTransmission (fst r)])) = 0
                /\ fst (IdentifyIOexp bus (fst r)
                          (before ++ [BeginTransmission (fst r);
                                      EndTransmission]))
                   <> IIC_UNKNOWN)).
Proof.
  induction l as [|a l IH]; intros t r; subst r.
  - cbn. split; [|left; reflexivity].
    exists []. rewrite app_nil_r. auto.
  - rewrite LocateDevice_scan_cons.
    destruct (Z.eqb_spec
                (u8 (bus_endTransmission bus (t ++ [BeginTransmission a])))
                0) as [Hack | Hnack].
    + destruct (fst (IdentifyIOexp bus a
                       (t ++ [BeginTransmission a; EndTransmission])))
        eqn:Hty; cbn [iicChipType_eqb].
      * destruct (IH (t ++ [BeginTransmission a; EndTransmission]
                        ++ probe_calls a)) as ((calls & Hc & Hb) & Hr).
        split.
        -- exists ([BeginTransmission a; EndTransmission]
                     ++ probe_calls a ++ calls).
           rewrite Hc, <- !app_assoc. split; [reflexivity|].
           rewrite !writes_bytes_app, Hb. reflexivity.
        -- destruct Hr as [Hu | (Hin & Hrest)]; [left; exact Hu|].
           right. split; [right; exact Hin | exact Hrest].
      * cbn [fst snd]. split.
        -- eexists. split; reflexivity.
        -- right. split; [left; reflexivity|].
           exists t. rewrite Hack, Hty. repeat split; congruence.
      * cbn [fst snd]. split.
        -- eexists. split; reflexivity.
        -- right. split; [left; reflexivity|].
           exists t. rewrite Hack, Hty. repeat split; congruence.
    + destruct (IH (t ++ [BeginTransmission a; EndTransmission]))
        as ((calls & Hc & Hb) & Hr).
      split.
      * exists ([BeginTransmission a; EndTransmission] ++ calls).
        rewrite Hc, <- !app_assoc. split; [reflexivity|].
        rewrite writes_bytes_app, Hb. reflexivity.
      * destruct Hr as [Hu | (Hin & Hrest)]; [left; exact Hu|].
        right. split; [right; exact Hin | exact Hrest].
Qed.

Lemma in_all_addresses (a : Z) : In a all_addresses -> 0 <= a <= 127.
Proof.
  intros H. apply (in_addresses_below 128) in H. lia.
Qed.

End LocateFacts.

(** X4.  Whatever the devices on the bus do, [LocateDevice] returns the
    sentinel 0xFF or an address of 0..127; in the second case its last
    calls are the open/close probe of that address, which was
    acknowledged, followed by the calls of [IdentifyIOexp] at that
    address, which recognised a chip. *)
Theorem LocateDevice_returns_probed_address :
  forall (bus : Bus) (t : Trace),
    let found := value_of (LocateDevice bus t) in
    found = IIC_ADDR_UNKNOWN
    \/ (0 <= found <= 127
        /\ exists before,
            trace_of (LocateDevice bus t)
            = before ++ [BeginTransmission found; EndTransmission]
                ++ probe_calls found
            /\ u8 (bus_endTransmission bus
                     (before ++ [BeginTransmission found])) = 0
            /\ value_of (IdentifyIOexp bus found
                           (before ++ [BeginTransmission found;
                                       EndTransmission]))
               <> IIC_UNKNOWN).
Proof.
  intros bus t found. subst found. unfold LocateDevice.
  destruct (LocateDevice_scan_outcome bus all_addresses t) as (_ & Hr).
  destruct Hr as [Hu | (Hin & Hrest)]; [left; exact Hu|].
  right. split; [apply in_all_addresses; exact Hin | exact Hrest].
Qed.

(** ** [init], case by case *)

Section InitFacts.
Context {h : LCD_h}.
Variable bus : Bus.

Lemma set_Addr_same (lcd : LiquidCrystal_IIC) : set_Addr (_Addr lcd) lcd = lcd.
Proof. destruct lcd. reflexivity. Qed.

Lemma set_iicType_same (lcd : LiquidCrystal_IIC) :
  set_iicType (_iicType lcd) lcd = lcd.
Proof. destruct lcd. reflexivity. Qed.

(** The step of [init] that settles the address, and the one that
    settles the chip type. *)
Lemma init_run (lcd : LiquidCrystal_IIC) (t : Trace) :
  let located :=
    (if _Addr lcd =? IIC_ADDR_UNKNOWN
     then LocateDevice bus else ret (_Addr lcd)) (t ++ [Begin]) in
  let a := fst located in
  let identified :=
    (if iicChipType_eqb (_iicType lcd) IIC_UNKNOWN
     then IdentifyIOexp bus a else ret (_iicType lcd)) (snd located) in
  let ty := fst identified in
  init bus lcd t =
  if a =? IIC_ADDR_UNKNOWN then ((-1, set_Addr a lcd), snd located)
  else if iicChipType_eqb ty IIC_UNKNOWN
       then ((-1, set_iicType ty (set_Addr a lcd)), snd identified)
       else
         ((u8 (bus_endTransmission bus
                 (snd identified ++ removelast (configure_calls a ty))),
           set_displayfunction
             (Z.lor (Z.lor LCD_4BITMODE LCD_1LINE) LCD_5x8DOTS)
             (set_iicType ty (set_Addr a lcd))),
          snd identified ++ configure_calls a ty).
Proof.
  intros located a identified ty. unfold init.
  rewrite bind_run. unfold Wire.begin, emit. cbn [fst snd].
  rewrite bind_run. fold located. fold a.
  cbn [set_Addr _Addr _iicType].
  destruct (a =? IIC_ADDR_UNKNOWN); [reflexivity|].
  rewrite bind_run. fold identified. fold ty.
  cbn [set_iicType _iicType _Addr].
  destruct ty; cbn [iicChipType_eqb]; [reflexivity | |];
    unfold configure_calls; cbn [app removelast]; run_wire; reflexivity.
Qed.

Lemma init_frame (lcd : LiquidCrystal_IIC) (t : Trace) :
  let lcd' := snd (value_of (init bus lcd t)) in
  _En lcd' = _En lcd /\ _Rw lcd' = _Rw lcd /\ _Rs lcd' = _Rs lcd
  /\ _data_pins lcd' = _data_pins lcd
  /\ _backlightPinMask lcd' = _backlightPinMask lcd
  /\ _backlightStsMask lcd' = _backlightStsMask lcd
  /\ _polarity lcd' = _polarity lcd.
Proof.
  cbv zeta. rewrite init_run. unfold value_of.
  repeat match goal with
         | |- context [if ?c then _ else _] => destruct c
         end; cbn; repeat split; reflexivity.
Qed.

Lemma u8_range (x : Z) : 0 <= u8 x <= 255.
Proof. unfold u8. pose proof (Z.mod_pos_bound x 256). lia. Qed.

(** The three ways [init] ends. *)
Lemma init_outcome (lcd : LiquidCrystal_IIC) (t : Trace) :
  exists (a : Z) (ty : iicChipType) (t' : Trace),
    ((init bus lcd t = ((-1, set_Addr a lcd), t')
      /\ a = IIC_ADDR_UNKNOWN)
     \/ (init bus lcd t = ((-1, set_iicType ty (set_Addr a lcd)), t')
         /\ a <> IIC_ADDR_UNKNOWN /\ ty = IIC_UNKNOWN)
     \/ (exists s,
            init bus lcd t
            = ((u8 s,
                set_displayfunction
                  (Z.lor (Z.lor LCD_4BITMODE LCD_1LINE) LCD_5x8DOTS)
                  (set_iicType ty (set_Addr a lcd))), t')
            /\ a <> IIC_ADDR_UNKNOWN /\ ty <> IIC_UNKNOWN))
    /\ (_Addr lcd <> IIC_ADDR_UNKNOWN -> a = _Addr lcd)
    /\ (_Addr lcd = IIC_ADDR_UNKNOWN ->
        a = IIC_ADDR_UNKNOWN \/ 0 <= a <= 127)
    /\ (_iicType lcd <> IIC_UNKNOWN -> ty = _iicType lcd).
Proof.
  pose proof (init_run lcd t) as Hrun. cbv zeta in Hrun.
  set (located := (if _Addr lcd =? IIC_ADDR_UNKNOWN
                   then LocateDevice bus else ret (_Addr lcd))
                    (t ++ [Begin])) in *.
  set (a := fst located) in *.
  set (identified := (if iicChipType_eqb (_iicType lcd) IIC_UNKNOWN
                      then IdentifyIOexp bus a else ret (_iicType lcd))
                       (snd located)) in *.
  set (ty := fst identified) in *.
  exists a, ty.
  assert (Ha1 : _Addr lcd <> IIC_ADDR_UNKNOWN -> a = _Addr lcd).
  { intros Hn. subst a located.
    destruct (Z.eqb_spec (_Addr lcd) IIC_ADDR_UNKNOWN);
      [contradiction | reflexivity]. }
  assert (Ha2 : _Addr lcd = IIC_ADDR_UNKNOWN ->
                a = IIC_ADDR_UNKNOWN \/ 0 <= a <= 127).
  { intros Hu. subst a located. rewrite Hu. cbn [Z.eqb Pos.eqb].
    destruct (LocateDevice_scan_outcome bus all_addresses (t ++ [Begin]))
      as (_ & [Hs | (Hin & _)]).
    - left. exact Hs.
    - right. apply in_all_addresses. exact Hin. }
  assert (Hty : _iicType lcd <> IIC_UNKNOWN -> ty = _iicType lcd).
  { intros Hn. subst ty identified.
    destruct (_iicType lcd); [contradiction | reflexivity | reflexivity]. }
  destruct (Z.eqb_spec a IIC_ADDR_UNKNOWN) as [Hau | Han].
  - exists (snd located). split; [left; split; assumption|].
    repeat split; assumption.
  - destruct ty eqn:Ety; cbn [iicChipType_eqb] in Hrun.
    + exists (snd identified). split; [|repeat split; assumption].
      right; left. repeat split; assumption.
    + eexists. split; [|repeat split; assumption].
      right; right. eexists. split; [exact Hrun|].
      split; [assumption | discriminate].
    + eexists. split; [|repeat split; assumption].
      right; right. eexists. split; [exact Hrun|].
      split; [assumption | discriminate].
Qed.

End InitFacts.

(** X5.  With the address and the chip type both given, [init] runs
    neither the scan nor the identification probe: after [Wire.begin()]
    and [Wire.begin(address)] it makes, for a PCF8574, the one
    transaction that writes 0x00 to the port and, for an MCP23008, the
    transactions IOCON := 0x20, IODIR := 0x00 and OLAT := 0x00.  It
    returns the status of the last [endTransmission] and assigns
    [_displayfunction] only. *)
Theorem init_configures_given_expander :
  forall (h : LCD_h) (bus : Bus) (lcd : LiquidCrystal_IIC) (t : Trace),
    _Addr lcd <> IIC_ADDR_UNKNOWN ->
    _iicType lcd <> IIC_UNKNOWN ->
    let a := _Addr lcd in
    let setup :=
      match _iicType lcd with
      | IIC_MCP23008 =>
          [Write 5; Write 32; EndTransmission;
           BeginTransmission a; Write 0; Write 0; EndTransmission;
           BeginTransmission a; Write 10]
      | _ => []
      end in
    init bus lcd t
    = ((u8 (bus_endTransmission bus
              (t ++ [Begin; BeginAs a; BeginTransmission a] ++ setup
                 ++ [Write 0])),
        set_displayfunction
          (Z.lor (Z.lor LCD_4BITMODE LCD_1LINE) LCD_5x8DOTS) lcd),
       t ++ [Begin; BeginAs a; BeginTransmission a] ++ setup
         ++ [Write 0; EndTransmission]).
Proof.
  intros h bus lcd t Ha Hty a setup. subst a setup.
  rewrite init_run.
  destruct (Z.eqb_spec (_Addr lcd) IIC_ADDR_UNKNOWN); [contradiction|].
  unfold ret. cbn [fst snd].
  destruct (Z.eqb_spec (_Addr lcd) IIC_ADDR_UNKNOWN); [contradiction|].
  pose proof (set_iicType_same lcd) as Hsame.
  destruct (_iicType lcd) eqn:Hlcd; [contradiction | |];
    cbn [iicChipType_eqb fst snd];
    rewrite set_Addr_same, Hsame;
    unfold configure_calls; cbn [app removelast];
    flatten_trace; reflexivity.
Qed.

Lemma init_configures_given_expander_witness :
  init (h := sample_LCD_h) (one_device 39 0) (board_YWROBOT 39) []
  = ((0, board_YWROBOT 39),
     [Begin; BeginAs 39; BeginTransmission 39; Write 0; EndTransmission]).
Proof.
  apply (init_configures_given_expander sample_LCD_h (one_device 39 0)
           (board_YWROBOT 39) []).
  - vm_compute; discriminate.
  - discriminate.
Defined.

(** X6.  [init] returns -1 exactly when it leaves the address or the
    chip type unresolved, and a status of 0..255 otherwise.  It never
    replaces an address or a chip type that was given, an address it
    locates is one of 0..127, and it leaves the pin masks, the backlight
    masks and the polarity as they were. *)
Theorem init_status_and_frame :
  forall (h : LCD_h) (bus : Bus) (lcd : LiquidCrystal_IIC) (t : Trace),
    let status := fst (value_of (init bus lcd t)) in
    let lcd' := snd (value_of (init bus lcd t)) in
    (status = -1
     <-> _Addr lcd' = IIC_ADDR_UNKNOWN \/ _iicType lcd' = IIC_UNKNOWN)
    /\ (status = -1 \/ 0 <= status <= 255)
    /\ (_Addr lcd <> IIC_ADDR_UNKNOWN -> _Addr lcd' = _Addr lcd)
    /\ (_iicType lcd <> IIC_UNKNOWN -> _iicType lcd' = _iicType lcd)
    /\ (_Addr lcd = IIC_ADDR_UNKNOWN ->
        _Addr lcd' = IIC_ADDR_UNKNOWN \/ 0 <= _Addr lcd' <= 127)
    /\ _En lcd' = _En lcd /\ _Rw lcd' = _Rw lcd /\ _Rs lcd' = _Rs lcd
    /\ _data_pins lcd' = _data_pins lcd
    /\ _backlightPinMask lcd' = _backlightPinMask lcd
    /\ _backlightStsMask lcd' = _backlightStsMask lcd
    /\ _polarity lcd' = _polarity lcd.
Proof.
  intros h bus lcd t status lcd'.
  assert (Hframe := init_frame bus lcd t). cbv zeta in Hframe.
  fold lcd' in Hframe.
  destruct (init_outcome bus lcd t)
    as (a & ty & t' & Hcases & Ha1 & Ha2 & Hty).
  assert (Hlcd' : _Addr lcd' = a
                  /\ (a <> IIC_ADDR_UNKNOWN -> _iicType lcd' = ty)
                  /\ (a = IIC_ADDR_UNKNOWN ->
                      _iicType lcd' = _iicType lcd)
                  /\ (status = -1
                      <-> a = IIC_ADDR_UNKNOWN \/ ty = IIC_UNKNOWN)
                  /\ (status = -1 \/ 0 <= status <= 255)).
  { subst status lcd'. unfold value_of.
    destruct Hcases as [(-> & Hau) | [(-> & Han & Hu) | (s & -> & Han & Hk)]];
      cbn [fst snd set_displayfunction set_iicType set_Addr _Addr _iicType].
    - repeat split; auto; contradiction.
    - repeat split; auto; contradiction.
    - pose proof (u8_range s).
      repeat split; auto; try contradiction; try lia.
      intros [? | ?]; contradiction. }
  destruct Hlcd' as (HA & HT & HT0 & Hst & Hrange).
  split; [|split; [exact Hrange|split; [|split; [|split; [|exact Hframe]]]]].
  - rewrite Hst, HA. split.
    + intros [Hu | Hu]; [left; exact Hu|].
      destruct (Z.eq_dec a IIC_ADDR_UNKNOWN) as [Hau | Han];
        [left; exact Hau | right; rewrite (HT Han); exact Hu].
    + intros [Hu | Hu]; [left; exact Hu|].
      destruct (Z.eq_dec a IIC_ADDR_UNKNOWN) as [Hau | Han];
        [left; exact Hau | right; rewrite <- (HT Han); exact Hu].
  - intros Hn. rewrite HA. apply Ha1. exact Hn.
  - intros Hn.
    destruct (Z.eq_dec a IIC_ADDR_UNKNOWN) as [Hau | Han].
    + apply HT0. exact Hau.
    + rewrite (HT Han). apply Hty. exact Hn.
  - intros Hu. rewrite HA. apply Ha2. exact Hu.
Qed.

Lemma init_status_and_frame_witness :
  _Addr (snd (value_of (init (h := sample_LCD_h) empty_bus
                             (board_ADAFRUIT 32) []))) = 32.
Proof.
  destruct (init_status_and_frame sample_LCD_h empty_bus
              (board_ADAFRUIT 32) []) as (_ & _ & H & _).
  apply H. vm_compute. discriminate.
Defined.

(** X7.  After an [init] that returned a status other than -1 the
    address and the chip type are resolved, and every [send], a carriage
    return or line feed in data mode apart, opens a transaction to that
    address. *)
Theorem send_after_successful_init :
  forall (h : LCD_h) (bus : Bus) (lcd : LiquidCrystal_IIC)
         (value mode : Z) (t t' : Trace),
    let status := fst (value_of (init bus lcd t)) in
    let lcd' := snd (value_of (init bus lcd t)) in
    status <> -1 ->
    ~ (mode = DATA /\ (value = 13 \/ value = 10)) ->
    _Addr lcd' <> IIC_ADDR_UNKNOWN
    /\ _iicType lcd' <> IIC_UNKNOWN
    /\ exists calls,
        send bus value mode lcd' t'
        = (lcd', t' ++ BeginTransmission (_Addr lcd') :: calls).
Proof.
  intros h bus lcd value mode t t' status lcd' Hok Hkept.
  assert (Hres : _Addr lcd' <> IIC_ADDR_UNKNOWN
                 /\ _iicType lcd' <> IIC_UNKNOWN).
  { subst status lcd'. unfold value_of in *.
    destruct (init_outcome bus lcd t) as (a & ty & t1 & Hcases & _).
    destruct Hcases as [(Hi & _) | [(Hi & _) | (s & Hi & Han & Hk)]];
      rewrite Hi in *; cbn [fst snd] in *; try contradiction.
    split; assumption. }
  destruct Hres as (Ha & Hty). split; [exact Ha | split; [exact Hty|]].
  destruct (Z.eq_dec mode FOUR_BITS) as [-> | Hfour].
  - rewrite send_FOUR_BITS by exact Ha. eexists. reflexivity.
  - rewrite send_full_byte by assumption. eexists. reflexivity.
Qed.

Lemma send_after_successful_init_witness :
  exists calls,
    send (h := sample_LCD_h) (one_device 39 0) 72 (@DATA sample_LCD_h)
         (snd (value_of (init (h := sample_LCD_h) (one_device 39 0)
                              (board_YWROBOT 39) []))) [Begin]
    = (snd (value_of (init (h := sample_LCD_h) (one_device 39 0)
                           (board_YWROBOT 39) [])),
       [Begin]
         ++ BeginTransmission
              (_Addr (snd (value_of (init (h := sample_LCD_h)
                                          (one_device 39 0)
                                          (board_YWROBOT 39) []))))
            :: calls).
Proof.
  apply (send_after_successful_init sample_LCD_h (one_device 39 0)
           (board_YWROBOT 39) 72 1 [] [Begin]).
  - vm_compute. discriminate.
  - intros [_ [H | H]]; discriminate H.
Defined.

(** ** Only bytes reach [Wire.write] *)

Section InitBytes.
Context {h : LCD_h}.
Variable bus : Bus.

Lemma configure_calls_bytes (a : Z) (ty : iicChipType) :
  writes_bytes (configure_calls a ty) = true.
Proof. destruct ty; reflexivity. Qed.

Lemma init_bytes (lcd : LiquidCrystal_IIC) (t : Trace) :
  writes_bytes t = true ->
  writes_bytes (trace_of (init bus lcd t)) = true
  /\ byte_fields (snd (value_of (init bus lcd t))) = byte_fields lcd.
Proof.
  intros Ht. rewrite init_run. unfold trace_of, value_of.
  set (located := (if _Addr lcd =? IIC_ADDR_UNKNOWN
                   then LocateDevice bus else ret (_Addr lcd))
                    (t ++ [Begin])).
  set (a := fst located).
  set (identified := (if iicChipType_eqb (_iicType lcd) IIC_UNKNOWN
                      then IdentifyIOexp bus a else ret (_iicType lcd))
                       (snd located)).
  assert (Hl : writes_bytes (snd located) = true).
  { subst located. destruct (_Addr lcd =? IIC_ADDR_UNKNOWN).
    - destruct (LocateDevice_scan_outcome bus all_addresses (t ++ [Begin]))
        as ((calls & Hc & Hb) & _).
      unfold LocateDevice. rewrite Hc, !writes_bytes_app, Ht, Hb.
      reflexivity.
    - unfold ret. cbn [snd]. rewrite writes_bytes_app, Ht. reflexivity. }
  assert (Hi : writes_bytes (snd identified) = true).
  { subst identified. destruct (iicChipType_eqb (_iicType lcd) IIC_UNKNOWN).
    - rewrite IdentifyIOexp_run. cbn [snd].
      rewrite writes_bytes_app, Hl. reflexivity.
    - exact Hl. }
  destruct (a =? IIC_ADDR_UNKNOWN); [split; [exact Hl | reflexivity]|].
  destruct (iicChipType_eqb (fst identified) IIC_UNKNOWN);
    [split; [exact Hi | reflexivity]|].
  cbn [fst snd]. split; [|reflexivity].
  rewrite writes_bytes_app, Hi, configure_calls_bytes. reflexivity.
Qed.

End InitBytes.

(** X8.  The constructors make objects whose masks are bytes, and on
    such an object [send] (with byte modes), [setBacklight] and [init]
    keep the masks bytes and hand [Wire.write] nothing but bytes. *)
Theorem driver_writes_only_bytes :
  (forall (addr : Z) (ty : iicChipType) (En Rw Rs d4 d5 d6 d7 bl : Z)
          (pol : t_backlighPol),
      byte_fields (config addr ty En Rw Rs d4 d5 d6 d7) = true
      /\ byte_fields
           (LiquidCrystal_IIC_bl addr ty En Rw Rs d4 d5 d6 d7 bl pol) = true)
  /\ (forall (h : LCD_h) (bus : Bus) (lcd : LiquidCrystal_IIC) (t : Trace),
         byte_fields lcd = true ->
         is_byte COMMAND = true ->
         writes_bytes t = true ->
         (forall calls : list (Z * Z),
             forallb (fun c => is_byte (snd c)) calls = true ->
             writes_bytes (trace_of (send_all bus calls lcd t)) = true)
         /\ (forall levels : list Z,
                writes_bytes (trace_of (setBacklight_all bus levels lcd t))
                = true
                /\ byte_fields
                     (value_of (setBacklight_all bus levels lcd t)) = true)
         /\ writes_bytes (trace_of (init bus lcd t)) = true
         /\ byte_fields (snd (value_of (init bus lcd t))) = true).
Proof.
  split.
  - intros addr ty En Rw Rs d4 d5 d6 d7 bl pol.
    unfold LiquidCrystal_IIC_bl, setBacklightPin, config, byte_fields.
    cbn [set_backlightPin _backlightPinMask _backlightStsMask _En _Rs
         _data_pins forallb].
    rewrite !is_byte_u8. split; reflexivity.
  - intros h bus lcd t Hlcd Hcmd Ht. repeat split.
    + intros calls Hmodes.
      destruct (send_all_emits calls lcd) as (e & He & Hb).
      rewrite He. unfold trace_of. cbn [snd].
      rewrite writes_bytes_app, Ht, Hb by assumption. reflexivity.
    + destruct (setBacklight_all_emits levels lcd)
        as (lcd' & e & He & Hb).
      rewrite He. unfold trace_of. cbn [snd].
      destruct (Hb Hlcd) as (_ & Hw).
      rewrite writes_bytes_app, Ht, Hw. reflexivity.
    + destruct (setBacklight_all_emits levels lcd)
        as (lcd' & e & He & Hb).
      rewrite He. unfold value_of. cbn [fst]. apply Hb. exact Hlcd.
    + apply init_bytes. exact Ht.
    + destruct (init_bytes bus lcd t Ht) as (_ & ->). exact Hlcd.
Qed.

Lemma driver_writes_only_bytes_witness :
  writes_bytes
    (trace_of (send_all (h := sample_LCD_h) (one_device 39 0)
                        [(72, 1); (105, 1); (1, 0)] (board_YWROBOT 39) []))
  = true.
Proof.
  destruct driver_writes_only_bytes as (_ & H).
  destruct (H sample_LCD_h (one_device 39 0) (board_YWROBOT 39) []
              eq_refl eq_refl eq_refl) as (Hsend & _).
  apply Hsend. reflexivity.
Defined.

(** X9.  On a bus of plain devices, [init] of an object constructed
    with the address and the chip type both unknown settles the address
    on the first identified device [k] of 0..127 and the chip type on
    the one its echo tells, runs the identification probe at [k] a
    second time, configures the expander and returns 0. *)
Theorem init_locates_and_identifies :
  forall (h : LCD_h) (present : Z -> bool) (echo : Z -> Z)
         (lcd : LiquidCrystal_IIC) (k : Z) (t : Trace),
    _Addr lcd = IIC_ADDR_UNKNOWN ->
    _iicType lcd = IIC_UNKNOWN ->
    0 <= k <= 127 ->
    identified present echo k = true ->
    (forall j, 0 <= j < k -> identified present echo j = false) ->
    let r := init (simple_bus present echo) lcd t in
    let ty := if u8 (echo k) =? 255 then IIC_MCP23008 else IIC_PCF8574 in
    fst (value_of r) = 0
    /\ _Addr (snd (value_of r)) = k
    /\ _iicType (snd (value_of r)) = ty
    /\ trace_of r
       = t ++ [Begin]
           ++ flat_map (visit_calls present) (addresses_upto k)
           ++ probe_calls k ++ configure_calls k ty.
Proof.
  intros h present echo lcd k t Haddr Htype Hk Hid Hbefore r ty.
  assert (Hloc : LocateDevice (simple_bus present echo) (t ++ [Begin])
                 = (k, (t ++ [Begin])
                         ++ flat_map (visit_calls present)
                              (addresses_upto k))).
  { unfold LocateDevice. rewrite (all_addresses_split k Hk).
    rewrite LocateDevice_scan_first; try assumption.
    - rewrite addresses_upto_split by lia. reflexivity.
    - intros a Ha. apply Hbefore. apply in_addresses_below. exact Ha. }
  unfold identified in Hid. apply andb_true_iff in Hid.
  destruct Hid as (Hp & Hecho).
  subst r. rewrite init_run. rewrite Haddr, Htype, Z.eqb_refl.
  cbn [iicChipType_eqb]. rewrite Hloc. cbn [fst snd].
  destruct (Z.eqb_spec k IIC_ADDR_UNKNOWN) as [Hku | _];
    [unfold IIC_ADDR_UNKNOWN in Hku; lia|].
  rewrite IdentifyIOexp_run. cbn [fst snd].
  cbn [bus_read simple_bus]. rewrite requested_in_probe, Hp.
  fold ty.
  assert (Hknown : ty <> IIC_UNKNOWN
                   /\ (if u8 (echo k) =? 255 then IIC_MCP23008
                       else if u8 (echo k) =? 0 then IIC_PCF8574
                            else IIC_UNKNOWN) = ty).
  { subst ty. destruct (u8 (echo k) =? 255); [split; [discriminate|auto]|].
    cbn [orb] in Hecho. rewrite Hecho. split; [discriminate | auto]. }
  destruct Hknown as (Hne & ->).
  destruct ty eqn:Ety; [contradiction | |];
    cbn [iicChipType_eqb fst snd set_displayfunction set_iicType set_Addr
         _Addr _iicType]; unfold value_of, trace_of; cbn [fst snd];
    cbn [bus_endTransmission simple_bus];
    unfold configure_calls; cbn [app removelast];
    rewrite rev_app_distr; cbn [rev app opened_in]; rewrite Hp;
    flatten_trace; repeat split; reflexivity.
Qed.

Lemma init_locates_and_identifies_witness :
  _Addr (snd (value_of
     (init (h := sample_LCD_h)
           (simple_bus (fun a => a =? 39) (fun _ => 0))
           (LiquidCrystal_IIC_auto IIC_ADDR_UNKNOWN 2 1 0 4 5 6 7) [])))
  = 39.
Proof.
  destruct (init_locates_and_identifies sample_LCD_h
              (fun a => a =? 39) (fun _ => 0)
              (LiquidCrystal_IIC_auto IIC_ADDR_UNKNOWN 2 1 0 4 5 6 7) 39 [])
    as (_ & H & _).
  - reflexivity.
  - reflexivity.
  - lia.
  - reflexivity.
  - intros j Hj. unfold identified.
    destruct (Z.eqb_spec j 39); [lia | reflexivity].
  - exact H.
Defined.

(** ** [I2CIO]: direction mask, port writes and reads *)

Lemma one_shifted_bit (p q : Z) :
  0 <= p -> Z.testbit (Z.shiftl 1 p) q = (p =? q).
Proof.
  intros Hp. rewrite Z.shiftl_1_l. apply Z.pow2_bits_eqb. exact Hp.
Qed.

Lemma byte_high_bit (x q : Z) :
  is_byte x = true -> 8 <= q -> Z.testbit x q = false.
Proof.
  intros Hx Hq. apply is_byte_mask in Hx. rewrite <- Hx.
  rewrite Z.land_spec. change 255 with (Z.ones 8).
  rewrite Z.ones_spec_high by lia. apply andb_false_r.
Qed.

Lemma land_one_bit (y : Z) : Z.land y 1 = Z.b2z (Z.testbit y 0).
Proof.
  change 1 with (Z.ones 1) at 1. rewrite Z.land_ones by lia.
  rewrite Z.pow_1_r. symmetry. apply Z.bit0_mod.
Qed.

(** X10.  On an initialised object [pinMode(pin, dir)] changes the
    direction bit of that one pin, to output (0) when [dir] is [OUTPUT]
    and to input (1) otherwise, and keeps the other seven; a pin number
    from 8 to 14 changes nothing.  On an object that is not initialised
    it does nothing.  The shadow is never touched and the mask stays a
    byte. *)
Theorem I2CIO_pinMode_one_pin :
  forall (h : I2CIO_h) (io : I2CIO) (pin dir : Z),
    0 <= pin <= 14 ->
    is_byte (_dirMask io) = true ->
    let io' := I2CIO_pinMode pin dir io in
    (_initialised io = true ->
     (forall q, 0 <= q <= 7 ->
        Z.testbit (_dirMask io') q
        = if q =? pin then negb (OUTPUT =? dir)
          else Z.testbit (_dirMask io) q)
     /\ (8 <= pin -> _dirMask io' = _dirMask io))
    /\ (_initialised io = false -> io' = io)
    /\ is_byte (_dirMask io') = true
    /\ _shadow io' = _shadow io
    /\ _initialised io' = _initialised io.
Proof.
  intros h io pin dir Hpin Hbyte io'. subst io'. unfold I2CIO_pinMode.
  destruct (_initialised io) eqn:Hinit.
  - assert (Hbit : forall q, 0 <= q ->
              Z.testbit
                (_dirMask (if OUTPUT =? dir
                           then set_dirMask
                                  (Z.land (_dirMask io)
                                     (Z.lnot (Z.shiftl 1 pin))) io
                           else set_dirMask
                                  (u8 (Z.lor (_dirMask io) (Z.shiftl 1 pin)))
                                  io)) q
              = if q <? 8
                then if q =? pin then negb (OUTPUT =? dir)
                     else Z.testbit (_dirMask io) q
                else false).
    { intros q Hq. destruct (OUTPUT =? dir); cbn [set_dirMask _dirMask negb].
      - rewrite Z.land_spec, Z.lnot_spec, one_shifted_bit by lia.
        rewrite (Z.eqb_sym pin q).
        destruct (Z.ltb_spec q 8).
        + destruct (q =? pin); [apply andb_false_r | apply andb_true_r].
        + rewrite byte_high_bit by (assumption || lia). reflexivity.
      - unfold u8. change 256 with (2 ^ 8).
        destruct (Z.ltb_spec q 8).
        + rewrite Z.mod_pow2_bits_low by lia.
          rewrite Z.lor_spec, one_shifted_bit by lia.
          rewrite (Z.eqb_sym pin q).
          destruct (q =? pin); [apply orb_true_r | apply orb_false_r].
        + apply Z.mod_pow2_bits_high. lia. }
    split; [|split; [discriminate|]].
    + intros _. split.
      * intros q Hq. rewrite Hbit by lia.
        destruct (Z.ltb_spec q 8); [reflexivity | lia].
      * intros Hbeyond. apply Z.bits_inj'. intros q Hq.
        rewrite Hbit by lia.
        destruct (Z.ltb_spec q 8).
        -- destruct (Z.eqb_spec q pin); [lia | reflexivity].
        -- symmetry. apply byte_high_bit; assumption.
    + split; [|destruct (OUTPUT =? dir); split;
                 (reflexivity || exact Hinit)].
      destruct (OUTPUT =? dir); cbn [set_dirMask _dirMask].
      * apply is_byte_land_l. exact Hbyte.
      * apply is_byte_u8.
  - split; [discriminate|]. split; [reflexivity|].
    split; [exact Hbyte | split; (reflexivity || exact Hinit)].
Qed.

Lemma I2CIO_pinMode_one_pin_witness :
  Z.testbit
    (_dirMask (I2CIO_pinMode (h := sample_I2CIO_h) 3 1
                             (mkI2CIO 39 255 0 true 1))) 3
  = (if 3 =? 3 then negb (@OUTPUT sample_I2CIO_h =? 1)
     else Z.testbit 255 3).
Proof.
  destruct (I2CIO_pinMode_one_pin sample_I2CIO_h (mkI2CIO 39 255 0 true 1)
              3 1) as (H & _).
  - lia.
  - reflexivity.
  - destruct (H eq_refl) as (Hbits & _). apply Hbits. lia.
Defined.

(** X11.  On an initialised object, [digitalWrite(pin, level)] with a
    pin of 0..7 transmits one byte, which becomes the shadow: every
    input-configured bit is 0, the bit of the pin is 1 exactly when the
    level is [HIGH] (and the pin is an output), and every other output
    bit is as the shadow had it. *)
Theorem I2CIO_digitalWrite_one_pin :
  forall (h : I2CIO_h) (bus : Bus) (io : I2CIO) (pin level : Z) (t : Trace),
    _initialised io = true ->
    0 <= pin <= 7 ->
    exists sent,
      trace_of (I2CIO_digitalWrite bus pin level io t)
      = t ++ [BeginTransmission (_i2cAddr io)]
          ++ (if _chipType io =? 0 then [Write MCP23008_GPIO] else [])
          ++ [Write sent; EndTransmission]
      /\ _shadow (snd (value_of (I2CIO_digitalWrite bus pin level io t)))
         = sent
      /\ forall q, 0 <= q ->
           Z.testbit sent q
           = negb (Z.testbit (_dirMask io) q)
             && (if q =? pin then level =? HIGH
                 else Z.testbit (_shadow io) q).
Proof.
  intros h bus io pin level t Hinit Hpin.
  unfold I2CIO_digitalWrite. rewrite Hinit.
  destruct (Z.leb_spec pin 7) as [_ | Hgt]; [|lia].
  cbn [andb].
  set (writeVal := Z.land (Z.shiftl 1 pin) (Z.lnot (_dirMask io))).
  set (target := if level =? HIGH
                 then Z.lor (_shadow io) writeVal
                 else Z.land (_shadow io) (Z.lnot writeVal)).
  assert (Hio : (if level =? HIGH
                 then set_shadow (Z.lor (_shadow io) writeVal) io
                 else set_shadow (Z.land (_shadow io) (Z.lnot writeVal)) io)
                = set_shadow target io)
    by (subst target; destruct (level =? HIGH); reflexivity).
  rewrite Hio. rewrite I2CIO_write_run by exact Hinit.
  cbn [set_shadow _shadow _dirMask _i2cAddr _chipType].
  exists (Z.land target (Z.lnot (_dirMask io))).
  unfold trace_of, value_of; cbn [fst snd set_shadow _shadow].
  split; [flatten_trace; reflexivity|]. split; [reflexivity|].
  intros q Hq. subst target writeVal.
  rewrite (Z.eqb_sym q pin).
  destruct (level =? HIGH);
    rewrite ?Z.land_spec, ?Z.lor_spec, ?Z.lnot_spec, ?Z.land_spec,
            ?Z.lnot_spec, ?one_shifted_bit by lia;
    destruct (pin =? q), (Z.testbit (_dirMask io) q),
             (Z.testbit (_shadow io) q); reflexivity.
Qed.

Lemma I2CIO_digitalWrite_one_pin_witness :
  exists sent,
    trace_of (I2CIO_digitalWrite (h := sample_I2CIO_h) (one_device 39 0)
                                 6 1 (mkI2CIO 39 15 128 true 1) [])
    = [] ++ [BeginTransmission 39] ++ [] ++ [Write sent; EndTransmission]
    /\ _shadow (snd (value_of
         (I2CIO_digitalWrite (h := sample_I2CIO_h) (one_device 39 0)
                             6 1 (mkI2CIO 39 15 128 true 1) []))) = sent
    /\ forall q, 0 <= q ->
         Z.testbit sent q
         = negb (Z.testbit 15 q)
           && (if q =? 6 then 1 =? @HIGH sample_I2CIO_h
               else Z.testbit 128 q).
Proof.
  apply (I2CIO_digitalWrite_one_pin sample_I2CIO_h (one_device 39 0)
           (mkI2CIO 39 15 128 true 1) 6 1 []).
  - reflexivity.
  - lia.
Defined.

(** X12.  On an initialised object, [digitalRead(pin)] with a pin of
    0..7 requests one byte (after pointing an MCP23008 to GPIO) and
    returns the bit of the pin in it when the pin is an input, and 0
    when the pin is an output.  On an object that is not initialised, or
    with a pin above 7, it returns 0 without a call on the bus. *)
Theorem I2CIO_digitalRead_input_bit :
  forall (h : I2CIO_h) (bus : Bus) (io : I2CIO) (pin : Z) (t : Trace),
    let r := I2CIO_digitalRead bus pin io t in
    let pointed :=
      t ++ (if _chipType io =? 0
            then [BeginTransmission (_i2cAddr io); Write MCP23008_GPIO;
                  EndTransmission]
            else []) in
    (_initialised io = true ->
     0 <= pin <= 7 ->
     trace_of r = pointed ++ [RequestFrom (_i2cAddr io) 1; Read]
     /\ value_of r
        = Z.b2z (Z.testbit (_dirMask io) pin
                 && Z.testbit
                      (bus_read bus
                         (pointed ++ [RequestFrom (_i2cAddr io) 1])) pin)
     /\ (Z.testbit (_dirMask io) pin = false -> value_of r = 0))
    /\ (_initialised io = false \/ 7 < pin -> r = (0, t)).
Proof.
  intros h bus io pin t r pointed. subst r. unfold I2CIO_digitalRead.
  split.
  - intros Hinit Hpin. rewrite Hinit.
    destruct (Z.leb_spec pin 7) as [_ | Hgt]; [|lia]. cbn [andb].
    rewrite bind_run. unfold I2CIO_read. rewrite Hinit.
    assert (Hrun :
      ((if _chipType io =? 0
        then Wire.beginTransmission (_i2cAddr io);;
             Wire.write MCP23008_GPIO;;
             _ <- Wire.endTransmission bus;; ret tt
        else ret tt);;
       _ <- Wire.requestFrom bus (_i2cAddr io) 1;;
       r <- Wire.read bus;; ret (Z.land (_dirMask io) r)) t
      = (Z.land (_dirMask io)
           (bus_read bus (pointed ++ [RequestFrom (_i2cAddr io) 1])),
         pointed ++ [RequestFrom (_i2cAddr io) 1; Read])).
    { subst pointed. destruct (_chipType io =? 0).
      - run_wire. reflexivity.
      - run_wire. rewrite ?app_nil_r. reflexivity. }
    rewrite Hrun. unfold ret, trace_of, value_of. cbn [fst snd].
    assert (Hval :
      Z.land
        (Z.shiftr
           (Z.land
              (Z.land (_dirMask io)
                 (bus_read bus (pointed ++ [RequestFrom (_i2cAddr io) 1])))
              (_dirMask io)) pin) 1
      = Z.b2z (Z.testbit (_dirMask io) pin
               && Z.testbit
                    (bus_read bus
                       (pointed ++ [RequestFrom (_i2cAddr io) 1])) pin)).
    { rewrite land_one_bit, Z.shiftr_spec, !Z.land_spec by lia.
      cbn [Z.add].
      destruct (Z.testbit (_dirMask io) pin), (Z.testbit (bus_read _ _) pin);
        reflexivity. }
    split; [reflexivity|]. split; [exact Hval|].
    intros Hout. rewrite Hval, Hout. reflexivity.
  - intros [Hinit | Hpin].
    + rewrite Hinit. reflexivity.
    + destruct (Z.leb_spec pin 7); [lia|]. rewrite andb_false_r.
      reflexivity.
Qed.

Lemma I2CIO_digitalRead_input_bit_witness :
  value_of (I2CIO_digitalRead (h := sample_I2CIO_h) (one_device 39 170) 3
                              (mkI2CIO 39 15 0 true 1) [])
  = 1.
Proof.
  destruct (I2CIO_digitalRead_input_bit sample_I2CIO_h (one_device 39 170)
              (mkI2CIO 39 15 0 true 1) 3 []) as (H & _).
  destruct (H eq_refl) as (_ & Hv & _); [lia|].
  rewrite Hv. reflexivity.
Defined.

(** X13.  [begin] on an object that is not yet initialised writes no
    byte to the device: for chip type 0 (MCP23008) the three register
    writes are skipped, since [write] does nothing before
    [_initialised] is set, and an empty transaction is all that is
    left.  The object is initialised exactly when the request of one
    byte obtained something, the shadow is the byte read, and the
    direction mask is kept. *)
Theorem I2CIO_begin_uninitialised :
  forall (h : I2CIO_h) (bus : Bus) (io : I2CIO) (i2cAddr chiptype : Z)
         (t : Trace),
    _initialised io = false ->
    let r := I2CIO_begin bus i2cAddr chiptype io t in
    let io' := snd (value_of r) in
    let opened :=
      t ++ [Begin]
        ++ (if chiptype =? 0
            then [BeginTransmission i2cAddr; EndTransmission] else []) in
    trace_of r = opened ++ [RequestFrom i2cAddr 1; Read]
    /\ _initialised io'
       = negb (u8 (bus_requestFrom bus opened i2cAddr 1) =? 0)
    /\ _shadow io' = u8 (bus_read bus (opened ++ [RequestFrom i2cAddr 1]))
    /\ _dirMask io' = _dirMask io
    /\ _i2cAddr io' = i2cAddr
    /\ _chipType io' = chiptype
    /\ fst (value_of r) = Z.b2z (_initialised io').
Proof.
  intros h bus io i2cAddr chiptype t Hinit r io' opened.
  subst io' r opened. unfold I2CIO_begin.
  cbn [_chipType _i2cAddr _initialised].
  destruct (chiptype =? 0).
  - unfold bind, Wire.begin, Wire.beginTransmission, emit.
    rewrite I2CIO_write_idle by exact Hinit. cbv beta iota. cbn [fst snd].
    rewrite I2CIO_write_idle by exact Hinit. cbv beta iota. cbn [fst snd].
    rewrite I2CIO_write_idle by exact Hinit. cbv beta iota. cbn [fst snd].
    run_wire. cbn. repeat split; reflexivity.
  - run_wire. cbn. rewrite ?app_nil_r. repeat split; reflexivity.
Qed.

Lemma I2CIO_begin_uninitialised_witness :
  trace_of (I2CIO_begin (h := sample_I2CIO_h) (one_device 32 0) 32 0
                        (I2CIO_new 7) [])
  = ([] ++ [Begin] ++ [BeginTransmission 32; EndTransmission])
      ++ [RequestFrom 32 1; Read].
Proof.
  apply (I2CIO_begin_uninitialised sample_I2CIO_h (one_device 32 0)
           (I2CIO_new 7) 32 0 []).
  reflexivity.
Defined.

Section ExpanderBytes.
Context {h : I2CIO_h}.
Variable bus : Bus.

Lemma io_bytes_spec (io : I2CIO) :
  io_bytes io = true <->
  is_byte (_dirMask io) = true /\ is_byte (_shadow io) = true.
Proof. unfold io_bytes. apply andb_true_iff. Qed.

(** [write] assigns the shadow alone, and hands the wire bytes. *)
Lemma I2CIO_write_keeps (cmd value : Z) (io : I2CIO) (t : Trace) :
  let io' := snd (fst (I2CIO_write bus cmd value io t)) in
  _dirMask io' = _dirMask io
  /\ _initialised io' = _initialised io
  /\ _i2cAddr io' = _i2cAddr io
  /\ _chipType io' = _chipType io
  /\ (io_bytes io = true -> is_byte value = true -> io_bytes io' = true)
  /\ (is_byte cmd = true -> is_byte value = true ->
      writes_bytes t = true ->
      writes_bytes (snd (I2CIO_write bus cmd value io t)) = true).
Proof.
  destruct (_initialised io) eqn:Hinit.
  - cbv zeta. rewrite I2CIO_write_run by exact Hinit. cbn [fst snd].
    cbn [set_shadow _dirMask _initialised _i2cAddr _chipType].
    repeat split; try reflexivity; try exact Hinit.
    + rewrite !io_bytes_spec. cbn [_dirMask _shadow].
      intros (Hd & _) Hv. split; [exact Hd | apply is_byte_land_l, Hv].
    + intros Hc Hv Ht. rewrite <- !app_assoc, !writes_bytes_app, Ht.
      destruct (_chipType io =? 0); cbn [writes_bytes forallb app];
        rewrite ?Hc, is_byte_land_l by exact Hv; reflexivity.
  - cbv zeta. rewrite I2CIO_write_idle by exact Hinit. cbn [fst snd].
    repeat split; auto.
Qed.

Lemma I2CIO_begin_keeps (i2cAddr chiptype : Z) (io : I2CIO) (t : Trace) :
  let io' := snd (value_of (I2CIO_begin bus i2cAddr chiptype io t)) in
  _dirMask io' = _dirMask io
  /\ (is_byte (_dirMask io) = true -> io_bytes io' = true)
  /\ (is_byte MCP23008_IOCON = true -> is_byte MCP23008_IODIR = true ->
      is_byte MCP23008_GPIO = true -> writes_bytes t = true ->
      writes_bytes (trace_of (I2CIO_begin bus i2cAddr chiptype io t))
      = true).
Proof.
  cbv zeta. unfold I2CIO_begin, value_of, trace_of.
  set (io0 := mkI2CIO i2cAddr (_dirMask io) (_shadow io) (_initialised io)
                      chiptype).
  cbn [_chipType _i2cAddr].
  rewrite bind_run. unfold Wire.begin at 1 2 3, emit. cbn [fst snd].
  rewrite bind_run.
  set (block :=
         (if _chipType io0 =? 0
          then
            Wire.beginTransmission i2cAddr;;
            r1 <- I2CIO_write bus MCP23008_IOCON 32 io0;;
            r2 <- I2CIO_write bus MCP23008_IODIR 0 (snd r1);;
            r3 <- I2CIO_write bus MCP23008_GPIO 0 (snd r2);;
            _ <- Wire.endTransmission bus;; ret (snd r3)
          else ret io0) (t ++ [Begin])).
  assert (Hblock : _dirMask (fst block) = _dirMask io
                   /\ (is_byte MCP23008_IOCON = true ->
                       is_byte MCP23008_IODIR = true ->
                       is_byte MCP23008_GPIO = true ->
                       writes_bytes t = true ->
                       writes_bytes (snd block) = true)).
  { subst block. destruct (_chipType io0 =? 0).
    - rewrite bind_run. unfold Wire.beginTransmission, emit.
      cbn [fst snd].
      rewrite bind_run.
      set (w1 := I2CIO_write bus MCP23008_IOCON 32 io0
                   ((t ++ [Begin]) ++ [BeginTransmission i2cAddr])).
      destruct (I2CIO_write_keeps MCP23008_IOCON 32 io0
                  ((t ++ [Begin]) ++ [BeginTransmission i2cAddr]))
        as (Hd1 & _ & _ & _ & _ & Hb1).
      fold w1 in Hd1, Hb1.
      rewrite bind_run.
      set (w2 := I2CIO_write bus MCP23008_IODIR 0 (snd (fst w1)) (snd w1)).
      destruct (I2CIO_write_keeps MCP23008_IODIR 0 (snd (fst w1)) (snd w1))
        as (Hd2 & _ & _ & _ & _ & Hb2).
      fold w2 in Hd2, Hb2.
      rewrite bind_run.
      set (w3 := I2CIO_write bus MCP23008_GPIO 0 (snd (fst w2)) (snd w2)).
      destruct (I2CIO_write_keeps MCP23008_GPIO 0 (snd (fst w2)) (snd w2))
        as (Hd3 & _ & _ & _ & _ & Hb3).
      fold w3 in Hd3, Hb3.
      rewrite bind_run. unfold Wire.endTransmission, ret. cbn [fst snd].
      split.
      + rewrite Hd3, Hd2, Hd1. reflexivity.
      + intros H1 H2 H3 Ht. rewrite writes_bytes_app.
        rewrite Hb3; [reflexivity | exact H3 | reflexivity|].
        apply Hb2; [exact H2 | reflexivity|].
        apply Hb1; [exact H1 | reflexivity|].
        rewrite !writes_bytes_app, Ht. reflexivity.
    - unfold ret. cbn [fst snd]. split; [reflexivity|].
      intros _ _ _ Ht. rewrite writes_bytes_app, Ht. reflexivity. }
  destruct Hblock as (Hd & Hb).
  rewrite bind_run. unfold Wire.requestFrom. cbn [fst snd].
  rewrite bind_run. unfold Wire.read, ret.
  cbn [fst snd set_shadow set_initialised _dirMask _shadow _i2cAddr].
  split; [exact Hd | split].
  - intros Hbyte. rewrite io_bytes_spec.
    cbn [set_shadow set_initialised _dirMask _shadow].
    rewrite Hd. split; [exact Hbyte | apply is_byte_u8].
  - intros H1 H2 H3 Ht. rewrite !writes_bytes_app, Hb by assumption.
    reflexivity.
Qed.

Lemma all_inputs_mask (value : Z) :
  is_byte value = true -> Z.land value (Z.lnot 255) = 0.
Proof.
  intros Hv. apply Z.bits_inj'. intros q Hq.
  rewrite Z.land_spec, Z.lnot_spec, Z.bits_0 by lia.
  destruct (Z.ltb_spec q 8).
  - change 255 with (Z.ones 8). rewrite Z.ones_spec_low by lia.
    apply andb_false_r.
  - rewrite byte_high_bit by assumption. reflexivity.
Qed.

End ExpanderBytes.

(** X14.  The constructor marks all pins as inputs and [begin] keeps
    the direction mask, so a [write] on an object whose pins are all
    inputs transmits 0 whatever the value.  After [portMode(dir)] a
    [write] of a byte transmits the byte itself, and 0 when [dir] is
    [INPUT]. *)
Theorem I2CIO_write_needs_output_pins :
  forall (h : I2CIO_h) (bus : Bus) (io : I2CIO)
         (cmd value dir i2cAddr chiptype : Z) (t t0 : Trace),
    is_byte value = true ->
    let preamble := if _chipType io =? 0 then [Write cmd] else [] in
    _dirMask (I2CIO_new chiptype) = 255
    /\ _dirMask (snd (value_of (I2CIO_begin bus i2cAddr chiptype io t0)))
       = _dirMask io
    /\ (_initialised io = true ->
        _dirMask io = 255 ->
        I2CIO_write bus cmd value io t
        = ((Z.b2z (u8 (bus_endTransmission bus
                         (t ++ [BeginTransmission (_i2cAddr io)]
                            ++ preamble ++ [Write 0])) =? 0),
            set_shadow 0 io),
           t ++ [BeginTransmission (_i2cAddr io)] ++ preamble
             ++ [Write 0; EndTransmission]))
    /\ (_initialised io = true ->
        let sent := if dir =? INPUT then 0 else value in
        trace_of (I2CIO_write bus cmd value (I2CIO_portMode dir io) t)
        = t ++ [BeginTransmission (_i2cAddr io)] ++ preamble
            ++ [Write sent; EndTransmission]
        /\ _shadow (snd (value_of
              (I2CIO_write bus cmd value (I2CIO_portMode dir io) t)))
           = sent).
Proof.
  intros h bus io cmd value dir i2cAddr chiptype t t0 Hv preamble.
  split; [reflexivity|].
  split; [apply I2CIO_begin_keeps|].
  split.
  - intros Hinit Hmask. rewrite I2CIO_write_run by exact Hinit.
    rewrite Hmask, all_inputs_mask by exact Hv.
    subst preamble. flatten_trace. reflexivity.
  - intros Hinit sent. unfold I2CIO_portMode. rewrite Hinit.
    subst sent preamble.
    destruct (dir =? INPUT);
      rewrite I2CIO_write_run by exact Hinit;
      cbn [set_dirMask set_shadow _dirMask _shadow _i2cAddr _chipType];
      unfold trace_of, value_of; cbn [fst snd set_shadow _shadow].
    + rewrite all_inputs_mask by exact Hv. flatten_trace. auto.
    + change (Z.lnot 0) with (-1). rewrite Z.land_m1_r.
      flatten_trace. auto.
Qed.

Lemma I2CIO_write_needs_output_pins_witness :
  trace_of (I2CIO_write (one_device 39 0) 9 85
              (I2CIO_portMode (h := sample_I2CIO_h) 1
                              (mkI2CIO 39 255 0 true 1)) [])
  = [] ++ [BeginTransmission 39] ++ [] ++ [Write 85; EndTransmission].
Proof.
  destruct (I2CIO_write_needs_output_pins sample_I2CIO_h (one_device 39 0)
              (mkI2CIO 39 255 0 true 1) 9 85 1 39 1 [] [])
    as (_ & _ & _ & H).
  - reflexivity.
  - destruct (H eq_refl) as (Ht & _). exact Ht.
Defined.

(** X15.  When the direction mask and the shadow are bytes, they still
    are after [write], [digitalWrite], [pinMode], [portMode] and
    [begin], and these hand [Wire.write] nothing but bytes. *)
Theorem I2CIO_keeps_bytes :
  forall (h : I2CIO_h) (bus : Bus) (io : I2CIO)
         (cmd value pin level dir i2cAddr chiptype : Z) (t : Trace),
    io_bytes io = true ->
    is_byte cmd = true ->
    is_byte value = true ->
    0 <= pin ->
    is_byte MCP23008_IOCON = true ->
    is_byte MCP23008_IODIR = true ->
    is_byte MCP23008_GPIO = true ->
    writes_bytes t = true ->
    (io_bytes (snd (value_of (I2CIO_write bus cmd value io t))) = true
     /\ writes_bytes (trace_of (I2CIO_write bus cmd value io t)) = true)
    /\ (io_bytes (snd (value_of (I2CIO_digitalWrite bus pin level io t)))
        = true
        /\ writes_bytes (trace_of (I2CIO_digitalWrite bus pin level io t))
           = true)
    /\ io_bytes (I2CIO_pinMode pin dir io) = true
    /\ io_bytes (I2CIO_portMode dir io) = true
    /\ (io_bytes (snd (value_of (I2CIO_begin bus i2cAddr chiptype io t)))
        = true
        /\ writes_bytes (trace_of (I2CIO_begin bus i2cAddr chiptype io t))
           = true).
Proof.
  intros h bus io cmd value pin level dir i2cAddr chiptype t
         Hio Hc Hv Hpin H1 H2 H3 Ht.
  pose proof (proj1 (io_bytes_spec io) Hio) as (Hd & Hs).
  split; [|split; [|split; [|split]]].
  - destruct (I2CIO_write_keeps bus cmd value io t)
      as (_ & _ & _ & _ & Hb & Hw).
    split; [apply Hb | apply Hw]; assumption.
  - unfold I2CIO_digitalWrite.
    destruct (_initialised io && (pin <=? 7)) eqn:Hguard;
      [|split; assumption].
    apply andb_true_iff in Hguard. destruct Hguard as (_ & Hle).
    apply Z.leb_le in Hle.
    set (writeVal := Z.land (Z.shiftl 1 pin) (Z.lnot (_dirMask io))).
    assert (Hwv : is_byte writeVal = true).
    { apply is_byte_land_l. rewrite Z.shiftl_1_l.
      rewrite <- (pin_mask_on_port pin) by lia. apply is_byte_u8. }
    set (io1 := if level =? HIGH
                then set_shadow (Z.lor (_shadow io) writeVal) io
                else set_shadow (Z.land (_shadow io) (Z.lnot writeVal)) io).
    assert (Hio1 : io_bytes io1 = true).
    { subst io1. rewrite io_bytes_spec.
      destruct (level =? HIGH); cbn [set_shadow _dirMask _shadow];
        (split; [exact Hd|]);
        [apply is_byte_lor | apply is_byte_land_l]; assumption. }
    pose proof (proj1 (io_bytes_spec io1) Hio1) as (_ & Hs1).
    destruct (I2CIO_write_keeps bus MCP23008_GPIO (_shadow io1) io1 t)
      as (_ & _ & _ & _ & Hb & Hw).
    split; [apply Hb | apply Hw]; assumption.
  - rewrite io_bytes_spec. unfold I2CIO_pinMode.
    destruct (_initialised io); [|split; assumption].
    destruct (OUTPUT =? dir); cbn [set_dirMask _dirMask _shadow];
      (split; [|exact Hs]);
      [apply is_byte_land_l; exact Hd | apply is_byte_u8].
  - rewrite io_bytes_spec. unfold I2CIO_portMode.
    destruct (_initialised io); [|split; assumption].
    destruct (dir =? INPUT); cbn [set_dirMask _dirMask _shadow];
      (split; [reflexivity | exact Hs]).
  - destruct (I2CIO_begin_keeps bus i2cAddr chiptype io t)
      as (_ & Hb & Hw).
    split; [apply Hb | apply Hw]; assumption.
Qed.

Lemma I2CIO_keeps_bytes_witness :
  io_bytes (snd (value_of
     (I2CIO_digitalWrite (h := sample_I2CIO_h) (one_device 39 0) 6 1
                         (mkI2CIO 39 15 128 true 1) []))) = true.
Proof.
  assert (Hpin : 0 <= 6) by lia.
  destruct (I2CIO_keeps_bytes sample_I2CIO_h (one_device 39 0)
              (mkI2CIO 39 15 128 true 1) 9 85 6 1 1 39 1 []
              eq_refl eq_refl eq_refl Hpin eq_refl eq_refl eq_refl eq_refl)
    as (_ & (H & _) & _).
  exact H.
Defined.

(** X16.  After [setBacklight(level)] on an object wired to eight
    distinct pins of the port, both bytes of every [write4bits] drive
    the backlight pin high exactly when the level is above 0 under
    Positive polarity, or is 0 under Negative polarity. *)
Theorem setBacklight_level_rides_on_writes :
  forall (h : LCD_h) (bus : Bus) (lcd : LiquidCrystal_IIC)
         (En Rw Rs d4 d5 d6 d7 bl level value mode : Z) (t t' : Trace),
    wired lcd En Rw Rs d4 d5 d6 d7 bl ->
    port_pins [En; Rw; Rs; d4; d5; d6; d7; bl] ->
    COMMAND = 0 ->
    mode = COMMAND \/ mode = DATA ->
    let lcd' := value_of (setBacklight bus level lcd t) in
    let high :=
      match _polarity lcd with
      | POSITIVE => 0 <? level
      | NEGATIVE => level =? 0
      end in
    exists first second,
      write4bits value mode lcd' t' = (tt, t' ++ [Write first; Write second])
      /\ Z.testbit first bl = high
      /\ Z.testbit second bl = high.
Proof.
  intros h bus lcd En Rw Rs d4 d5 d6 d7 bl level value mode t t'
         Hw Hpins Hcmd Hmode lcd' high.
  split_pins.
  destruct Hw as (HEn & HRw & HRs & Hdata & Hmask & Hsts).
  assert (Hnz : _backlightPinMask lcd <> 0).
  { rewrite Hmask, pin_mask_on_port by bounds_lia.
    apply Z.pow_nonzero; bounds_lia. }
  assert (Hlcd' : lcd'
                  = set_backlightStsMask
                      (backlight_status (_polarity lcd)
                         (_backlightPinMask lcd) level) lcd).
  { subst lcd'. rewrite setBacklight_run by exact Hnz. reflexivity. }
  assert (Hw' : wired lcd' En Rw Rs d4 d5 d6 d7 bl).
  { rewrite Hlcd'. unfold wired.
    cbn [set_backlightStsMask _En _Rw _Rs _data_pins _backlightPinMask
         _backlightStsMask].
    repeat (split; [assumption|]).
    unfold backlight_status.
    destruct (_polarity lcd); [destruct (0 <? level)
                              | destruct (level =? 0)]; auto. }
  assert (Hbit : Z.testbit (_backlightStsMask lcd') bl = high).
  { rewrite Hlcd'. cbn [set_backlightStsMask _backlightStsMask].
    subst high. unfold backlight_status.
    destruct (_polarity lcd); [destruct (0 <? level)
                              | destruct (level =? 0)];
      rewrite ?Z.bits_0; try reflexivity;
      rewrite Hmask, pin_mask_bit by bounds_lia;
      rewrite Z.eqb_refl; destruct (Z.ltb_spec bl 8);
        [reflexivity | bounds_lia | reflexivity | bounds_lia]. }
  assert (Hr : Z.testbit (pinMapValue_of value mode lcd') bl = high).
  { rewrite (rendered_bit lcd' En Rw Rs d4 d5 d6 d7 bl)
      by (assumption || bounds_lia).
    rewrite Hbit. decide_pins;
      rewrite ?andb_true_r, ?andb_false_r, ?orb_false_r, ?orb_false_l;
      reflexivity. }
  assert (HEn' : _En lcd' = u8 (Z.shiftl 1 En)) by apply Hw'.
  eexists. eexists. split; [apply write4bits_run|].
  rewrite HEn'. split.
  - rewrite Z.lor_spec, pin_mask_bit, Hr by bounds_lia.
    decide_pins; rewrite ?andb_false_r, ?orb_false_r; reflexivity.
  - rewrite Z.land_spec, Z.lnot_spec, pin_mask_bit, Hr by bounds_lia.
    decide_pins; rewrite ?andb_false_r, ?andb_true_r; reflexivity.
Qed.

Lemma setBacklight_level_rides_on_writes_witness :
  exists first second,
    write4bits (h := sample_LCD_h) 4 (@COMMAND sample_LCD_h)
      (value_of (setBacklight (one_device 39 0) 0 (board_LCM1602 39) []))
      [Begin]
    = (tt, [Begin] ++ [Write first; Write second])
    /\ Z.testbit first 3 = (0 =? 0)
    /\ Z.testbit second 3 = (0 =? 0).
Proof.
  apply (setBacklight_level_rides_on_writes sample_LCD_h (one_device 39 0)
           (board_LCM1602 39) 2 1 0 4 5 6 7 3 0 4 0 [] [Begin]).
  - unfold wired. cbn. repeat split; auto.
  - split.
    + repeat (constructor; [cbn [In]; intuition discriminate|]).
      constructor.
    + repeat constructor; lia.
  - reflexivity.
  - left; reflexivity.
Defined.
